(** * The window menubar (app/renderer/components/menubar.js)

    A shallow embedding of the [MenubarItem] and [Menubar] components and
    of the helper [showContextMenu], together with the properties of their
    click and keyboard handlers.

    The handlers only talk to the outside world: they call methods of the
    event they receive, query the document, and dispatch window actions.
    Every such call is recorded, in program order, in a trace of [effect]s.
    Window actions are fire-and-forget: the props a handler reads stay the
    same while it runs. *)

From Stdlib Require Import ZArith List Ascii String Bool Lia.
Import ListNotations.

Local Open Scope string_scope.
Local Open Scope list_scope.
Local Open Scope Z_scope.

(** * Data model *)

(** A DOMRect, as returned by [getBoundingClientRect]. *)
Record Rect := mkRect {
  rect_left : Z;
  rect_top : Z;
  rect_right : Z;
  rect_bottom : Z
}.

(** The [click] property of a submenu item.  A handler is either the one
    the host put in the template, or the closure that [showContextMenu]
    installs; the closure is represented by the variables it captures
    ([lastFocusedSelector] and the [label] of its [submenuItem]) and its
    body is [click] below. *)
Inductive Click :=
| HostClick (id : nat)
| MenubarClick (lastFocusedSelector : option string) (label : string).

(** A submenu entry: [Separator] is an entry whose [type] is
    [separatorMenuItem.type]; of any other entry the code reads [label],
    [visible] (a key that may be missing) and [click]. *)
Inductive SubmenuEntry :=
| Separator
| Item (label : string) (visible : option bool) (click : Click).

(** A top-level entry of the template. *)
Record MenuEntry := mkMenuEntry {
  label : string;
  submenu : list SubmenuEntry
}.

(** The argument of [windowActions.setContextMenuDetail]. *)
Record ContextMenuDetail := mkDetail {
  detail_left : Z;
  detail_top : Z;
  detail_template : list SubmenuEntry
}.

(** What a handler does to the outside world. *)
Inductive effect :=
| StopPropagation                                   (* e.stopPropagation() *)
| PreventDefault                                    (* e.preventDefault() *)
| Focus (selector : string)                         (* results[0].focus() *)
| SetContextMenuDetail (detail : option ContextMenuDetail)
| SetMenubarSelectedLabel (l : option string)
| SetSubmenuSelectedIndex (index : Z)
| ClickMenubarSubmenu (l : option string)
| ResetMenuState.

(** What the document answers to a query for the spans of the menubar:
    the bounding rectangles of the elements that match, or that the
    selector is not valid, in which case the query throws a SyntaxError. *)
Inductive Queried :=
| Matched (rects : list Rect)
| Invalid.

(** The document, as far as the component queries it. *)
Record Dom := mkDom {
  (* document.querySelectorAll(selector), asked with the selector that
     getRectByLabel builds around a label, which is any string *)
  querySelectorAll : string -> Queried;
  (* document.querySelectorAll(selector).length, asked with the last
     focused selector, which is a selector *)
  querySelectorAll_length : string -> nat
}.

(** * JavaScript values *)

(** Truthiness of a value that is a string or undefined. *)
Definition truthy_string (s : option string) : bool :=
  match s with
  | Some s => negb (s =? "")%string
  | None => false
  end.

(** Truthiness of a value that is an object or undefined/null. *)
Definition truthy {A : Type} (o : option A) : bool :=
  match o with
  | Some _ => true
  | None => false
  end.

(** [a === b] for a string [a] and a string-or-undefined [b]. *)
Definition strict_eq (a : string) (b : option string) : bool :=
  match b with
  | Some b => (a =? b)%string
  | None => false
  end.

(** The string that a string-or-undefined value is converted to, in a
    concatenation or as a selector. *)
Definition to_string (s : option string) : string :=
  match s with
  | Some s => s
  | None => "undefined"
  end.

(** * Handlers as computations

    A computation leaves a trace and either completes normally or throws. *)

Inductive exception := TypeError | SyntaxError.

Inductive completion (A : Type) :=
| Normal (a : A)
| Throw (ex : exception).
Arguments Normal {A} a.
Arguments Throw {A} ex.

Definition Eff (A : Type) : Type := list effect * completion A.

Definition ret {A} (a : A) : Eff A := ([], Normal a).

Definition bind {A B} (m : Eff A) (k : A -> Eff B) : Eff B :=
  match m with
  | (t, Normal a) => let (t', c) := k a in (t ++ t', c)
  | (t, Throw ex) => (t, Throw ex)
  end.

Definition perform (ef : effect) : Eff unit := ([ef], Normal tt).

Definition lift {A} (c : completion A) : Eff A := ([], c).

Notation "x <- m ;; k" := (bind m (fun x => k))
  (at level 61, m at next level, right associativity).
Notation "m ;; k" := (bind m (fun _ => k))
  (at level 61, right associativity).

Definition trace {A} (m : Eff A) : list effect := fst m.
Definition result {A} (m : Eff A) : completion A := snd m.

(** * showContextMenu *)

(** The body of the closure assigned to [submenuItem.click]. *)
Definition click (dom : Dom) (lastFocusedSelector : option string)
    (label : string) : Eff unit :=
  perform PreventDefault ;;
  (if truthy_string lastFocusedSelector then
     (* Send focus back to the active web frame *)
     if (querySelectorAll_length dom (to_string lastFocusedSelector) =? 1)%nat
     then perform (Focus (to_string lastFocusedSelector))
     else ret tt
   else ret tt) ;;
  perform (ClickMenubarSubmenu (Some label)).

(** Running a handler found in a template. *)
Definition run_click (dom : Dom) (c : Click) : option (Eff unit) :=
  match c with
  | HostClick _ => None
  | MenubarClick lastFocusedSelector l => Some (click dom lastFocusedSelector l)
  end.

(** The callback of [submenu.map].  The source assigns the closure to the
    entry in place and returns that entry; the result is the entry as
    updated. *)
Definition wrap_click (lastFocusedSelector : option string)
    (submenuItem : SubmenuEntry) : SubmenuEntry :=
  match submenuItem with
  | Separator => submenuItem
  | Item l v _ => Item l v (MenubarClick lastFocusedSelector l)
  end.

Definition showContextMenu (rect : Rect) (submenu : list SubmenuEntry)
    (lastFocusedSelector : option string) : Eff unit :=
  perform (SetContextMenuDetail (Some {|
    detail_left := rect_left rect;
    detail_top := rect_bottom rect;
    detail_template := map (wrap_click lastFocusedSelector) submenu
  |})).

(** * External collaborators *)

(** ** Immutable.List

    The operations of the immutable-data library that the component calls
    on the template and on a submenu. *)

Module Immutable.

Definition size {A} (l : list A) : Z := Z.of_nat (List.length l).

(** [l.findIndex(f)]: the index of the first element satisfying [f], or
    -1 when there is none. *)
Fixpoint findIndex {A} (f : A -> bool) (l : list A) : Z :=
  match l with
  | [] => -1
  | x :: l' =>
      if f x then 0
      else let i := findIndex f l' in if i =? -1 then -1 else i + 1
  end.

(** [l.get(index)]: a negative index counts back from the end of the
    list; outside the list the result is undefined. *)
Definition get {A} (l : list A) (index : Z) : option A :=
  let index := if index <? 0 then size l + index else index in
  if (0 <=? index) && (index <? size l) then nth_error l (Z.to_nat index)
  else None.

End Immutable.

(** [x.toJS()], and any other property access, throws on null and
    undefined. *)
Definition deref {A} (o : option A) : completion A :=
  match o with
  | Some x => Normal x
  | None => Throw TypeError
  end.

(** ** formatUtil.wrappingClamp *)

(** Modelled from the spec: [wrappingClamp] of app/common/lib/formatUtil
    is not part of the sources at hand.  Given value, lower bound and upper
    bound: if value exceeds the upper bound it wraps to the lower bound; if
    value is below the lower bound it wraps to the upper bound; otherwise
    it is unchanged. *)
Definition wrappingClamp (value min max : Z) : Z :=
  if max <? value then min
  else if value <? min then max
  else value.

(** ** keyCodes

    The key code constants of js/constants/keyCodes are taken as a
    parameter; all that is assumed of them is that they are distinct. *)
Record KeyCodes := mkKeyCodes {
  ENTER : Z;
  LEFT : Z;
  UP : Z;
  RIGHT : Z;
  DOWN : Z;
  keyCodes_distinct : NoDup [ENTER; LEFT; UP; RIGHT; DOWN]
}.

(** * Events *)

(** A keydown event. *)
Record KeyEvent := mkKeyEvent {
  which : Z
}.

(** A click or mouseover event: whether it has a [stopPropagation]
    method, and the bounding rectangle of its target. *)
Record MouseEvent := mkMouseEvent {
  stopPropagation : bool;
  target_getBoundingClientRect : Rect
}.

(** * Props of the menubar *)

Record MenubarProps := mkMenubarProps {
  template : list MenuEntry;
  selectedLabel : option string;
  selectedIndex : Z;
  autohide : bool;
  contextMenuDetail : option ContextMenuDetail;
  lastFocusedSelector : option string
}.

(** A rendered [span] of the menubar. *)
Record Span := mkSpan {
  className : string;
  data_label : string
}.

(** * MenubarItem *)

Module MenubarItem.

Record Props := mkProps {
  label : string;
  submenu : list SubmenuEntry;
  menubar : MenubarProps;
  lastFocusedSelector : option string;
  selected : bool
}.

Definition onClick (props : Props) (e : option MouseEvent) : Eff unit :=
  match e with
  | Some ev => if stopPropagation ev then perform StopPropagation else ret tt
  | None => ret tt
  end ;;
  (* If clicking on an already selected item, deselect it *)
  let selected := selectedLabel (menubar props) in
  if truthy_string selected && strict_eq (label props) selected then
    perform (SetContextMenuDetail None) ;;
    perform (SetMenubarSelectedLabel None)
  else
    (* Otherwise, mark item as selected and show its context menu *)
    perform (SetMenubarSelectedLabel (Some (label props))) ;;
    ev <- lift (deref e) ;;
    let rect := target_getBoundingClientRect ev in
    showContextMenu rect (submenu props) (lastFocusedSelector props).

Definition onMouseOver (props : Props) (e : option MouseEvent) : Eff unit :=
  let selected := selectedLabel (menubar props) in
  if truthy_string selected && negb (strict_eq (label props) selected) then
    onClick props e
  else ret tt.

Definition render (props : Props) : Span :=
  {| className := "menubarItem" ++ (if selected props then " selected" else "");
     data_label := label props |}.

End MenubarItem.

(** * Menubar *)

Module Menubar.

Definition getTemplateByLabel (props : MenubarProps) (l : option string)
    : option (list SubmenuEntry) :=
  let element := find (fun element => strict_eq (label element) l)
                   (template props) in
  match element with
  | Some element => Some (submenu element)
  | None => None
  end.

Definition selectedTemplate (props : MenubarProps) :=
  getTemplateByLabel props (selectedLabel props).

(** The callback of the filter in [selectedTemplateItemsOnly]. *)
Definition itemsOnly (element : SubmenuEntry) : bool :=
  match element with
  | Separator => false
  | Item _ (Some visible) _ => visible
  | Item _ None _ => true
  end.

Definition selectedTemplateItemsOnly (props : MenubarProps)
    : completion (list SubmenuEntry) :=
  (* exclude the separators AND items that are not visible *)
  match deref (selectedTemplate props) with
  | Normal selectedTemplate => Normal (filter itemsOnly selectedTemplate)
  | Throw ex => Throw ex
  end.

Definition selectedIndexMax (props : MenubarProps) : completion Z :=
  match selectedTemplateItemsOnly props with
  | Normal result =>
      Normal (if 0 <? Immutable.size result then Immutable.size result else 0)
  | Throw ex => Throw ex
  end.

(** The selector of [getRectByLabel]: the label goes into it as it is. *)
Definition menubarItemSelector (l : option string) : string :=
  ".menubar .menubarItem[data-label='" ++ to_string l ++ "']".

Definition getRectByLabel (dom : Dom) (l : option string)
    : completion (option Rect) :=
  match querySelectorAll dom (menubarItemSelector l) with
  | Invalid => Throw SyntaxError
  | Matched selected =>
      Normal (match selected with
              | [item] => Some item
              | _ => None
              end)
  end.

Definition selectedRect (dom : Dom) (props : MenubarProps)
    : completion (option Rect) :=
  getRectByLabel dom (selectedLabel props).

(** [template.getIn([index, 'label'])] *)
Definition getIn_label (template : list MenuEntry) (index : Z)
    : option string :=
  match Immutable.get template index with
  | Some element => Some (label element)
  | None => None
  end.

(** [items.getIn([index, 'label'])] on a submenu. *)
Definition getIn_item_label (items : list SubmenuEntry) (index : Z)
    : option string :=
  match Immutable.get items index with
  | Some (Item l _ _) => Some l
  | _ => None
  end.

(** The index of the selected label in the template, in the LEFT/RIGHT
    case. *)
Definition selectedLabelIndex (props : MenubarProps) : Z :=
  Immutable.findIndex
    (fun element => strict_eq (label element) (selectedLabel props))
    (template props).

Definition nextIndex (keyCodes : KeyCodes) (props : MenubarProps)
    (e : KeyEvent) : Z :=
  let selectedIndex := selectedLabelIndex props in
  if selectedIndex =? -1 then 0
  else wrappingClamp
         (selectedIndex + (if which e =? LEFT keyCodes then -1 else 1))
         0
         (Immutable.size (template props) - 1).

Definition nextLabel (keyCodes : KeyCodes) (props : MenubarProps)
    (e : KeyEvent) : option string :=
  getIn_label (template props) (nextIndex keyCodes props e).

(** The index dispatched in the UP/DOWN case when the selection moves. *)
Definition nextSubmenuIndex (keyCodes : KeyCodes) (props : MenubarProps)
    (e : KeyEvent) : completion Z :=
  match selectedIndexMax props with
  | Normal selectedIndexMax =>
      Normal (wrappingClamp
                (selectedIndex props + (if which e =? UP keyCodes then -1 else 1))
                0
                (selectedIndexMax - 1))
  | Throw ex => Throw ex
  end.

(** The body of [case keyCodes.ENTER]. *)
Definition case_ENTER (props : MenubarProps) : Eff unit :=
  perform PreventDefault ;;
  if truthy (selectedTemplate props) then
    items <- lift (selectedTemplateItemsOnly props) ;;
    let selectedLabel := getIn_item_label items (selectedIndex props) in
    perform (ClickMenubarSubmenu selectedLabel) ;;
    perform ResetMenuState
  else ret tt.

(** The body of [case keyCodes.LEFT: case keyCodes.RIGHT]. *)
Definition case_LEFT_RIGHT (keyCodes : KeyCodes) (props : MenubarProps)
    (dom : Dom) (e : KeyEvent) : Eff unit :=
  if negb (autohide props) && negb (truthy_string (selectedLabel props))
  then ret tt
  else
    perform PreventDefault ;;
    if 0 <? Immutable.size (template props) then
      let nextLabel := nextLabel keyCodes props e in
      nextRect <- lift (getRectByLabel dom nextLabel) ;;
      perform (SetMenubarSelectedLabel nextLabel) ;;
      (* Context menu already being displayed; auto-open the next one *)
      if truthy (contextMenuDetail props)
         && truthy (selectedTemplate props)
         && truthy nextRect
      then
        perform (SetSubmenuSelectedIndex 0) ;;
        submenu <- lift (deref (getTemplateByLabel props nextLabel)) ;;
        rect <- lift (deref nextRect) ;;
        showContextMenu rect submenu (lastFocusedSelector props)
      else ret tt
    else ret tt.

(** The body of [case keyCodes.UP: case keyCodes.DOWN]. *)
Definition case_UP_DOWN (keyCodes : KeyCodes) (props : MenubarProps)
    (dom : Dom) (e : KeyEvent) : Eff unit :=
  if negb (autohide props) && negb (truthy_string (selectedLabel props))
  then ret tt
  else
    perform PreventDefault ;;
    if truthy_string (selectedLabel props)
       && truthy (selectedTemplate props)
    then
      first <- (if negb (truthy (contextMenuDetail props))
                then rect <- lift (selectedRect dom props) ;; ret (truthy rect)
                else ret false) ;;
      if first
      then
        (* First time hitting up/down; popup the context menu *)
        perform (SetSubmenuSelectedIndex 0) ;;
        selectedRect <- lift (selectedRect dom props) ;;
        submenu <- lift (deref (selectedTemplate props)) ;;
        rect <- lift (deref selectedRect) ;;
        showContextMenu rect submenu (lastFocusedSelector props)
      else
        (* Context menu already visible; move selection up or down *)
        nextIndex <- lift (nextSubmenuIndex keyCodes props e) ;;
        perform (SetSubmenuSelectedIndex nextIndex)
    else ret tt.

(** [switch (e.which)]: the first case that is strictly equal wins. *)
Definition onKeyDown (keyCodes : KeyCodes) (props : MenubarProps) (dom : Dom)
    (e : KeyEvent) : Eff unit :=
  if which e =? ENTER keyCodes then
    case_ENTER props
  else if (which e =? LEFT keyCodes) || (which e =? RIGHT keyCodes) then
    case_LEFT_RIGHT keyCodes props dom e
  else if (which e =? UP keyCodes) || (which e =? DOWN keyCodes) then
    case_UP_DOWN keyCodes props dom e
  else ret tt.

Definition shouldComponentUpdate (props nextProps : MenubarProps) : bool :=
  negb (match selectedLabel props, selectedLabel nextProps with
        | Some a, Some b => (a =? b)%string
        | None, None => true
        | _, _ => false
        end).

(** The props bundles that [render] hands to the items, in order. *)
Definition render (props : MenubarProps) : list MenubarItem.Props :=
  map (fun menubarItem =>
         {| MenubarItem.label := label menubarItem;
            MenubarItem.submenu := submenu menubarItem;
            MenubarItem.menubar := props;
            MenubarItem.lastFocusedSelector := lastFocusedSelector props;
            MenubarItem.selected :=
              strict_eq (label menubarItem) (selectedLabel props) |})
      (template props).

(** The spans of the menubar as rendered, with their labels. *)
Definition rendered (props : MenubarProps) : list Span :=
  map MenubarItem.render (render props).

End Menubar.

(** ** The document that holds the rendered menubar *)

(** The characters that a single-quoted string of a selector holds as they
    are: the printable ASCII characters other than the apostrophe, which
    ends the string, and the backslash, which starts an escape. *)
Definition plain_char (c : ascii) : bool :=
  let n := nat_of_ascii c in
  (32 <=? n)%nat && (n <=? 126)%nat && negb (n =? 39)%nat && negb (n =? 92)%nat.

Fixpoint plain (s : string) : bool :=
  match s with
  | EmptyString => true
  | String c s' => plain_char c && plain s'
  end.

(** [strip_prefix p s] is [Some r] when [s] is [p] followed by [r]. *)
Fixpoint strip_prefix (p s : string) : option string :=
  match p, s with
  | EmptyString, _ => Some s
  | String a p', String b s' =>
      if Ascii.eqb a b then strip_prefix p' s' else None
  | String _ _, EmptyString => None
  end.

(** [strip_suffix q s] is [Some r] when [s] is [r] followed by [q]. *)
Fixpoint strip_suffix (q s : string) : option string :=
  if (s =? q)%string then Some EmptyString
  else match s with
       | EmptyString => None
       | String a s' =>
           match strip_suffix q s' with
           | Some r => Some (String a r)
           | None => None
           end
       end.

(** The text between the quotes of a selector of [getRectByLabel]. *)
Definition data_label_of (selector : string) : option string :=
  match strip_prefix ".menubar .menubarItem[data-label='" selector with
  | Some rest => strip_suffix "']" rest
  | None => None
  end.

(** The spans with a given data-label, the i-th placed by [layout]. *)
Fixpoint rects_of (layout : nat -> Rect) (i : nat) (spans : list Span)
    (l : string) : list Rect :=
  match spans with
  | [] => []
  | s :: spans' =>
      if (data_label s =? l)%string
      then layout i :: rects_of layout (S i) spans' l
      else rects_of layout (S i) spans' l
  end.

(** The document after the menubar has been rendered from [props].  A
    selector of [getRectByLabel] whose quoted text is plain matches the
    spans whose data-label is that text.  What the document answers to any
    other selector, where the quoted text is not read as it is written, is
    given by [special]; [others] counts the matches of a selector in the
    rest of the document. *)
Definition document_of (layout : nat -> Rect) (others : string -> nat)
    (special : string -> Queried) (props : MenubarProps) : Dom :=
  {| querySelectorAll := fun selector =>
       match data_label_of selector with
       | Some l =>
           if plain l
           then Matched (rects_of layout 0 (Menubar.rendered props) l)
           else special selector
       | None => special selector
       end;
     querySelectorAll_length := others |}.

(** * Example data *)

(** The key codes of the DOM. *)
Definition domKeyCodes : KeyCodes.
Proof.
  refine (mkKeyCodes 13 37 38 39 40 _).
  repeat constructor; simpl; intuition discriminate.
Defined.

Definition key (code : Z) : KeyEvent := {| which := code |}.

Definition newTab : SubmenuEntry := Item "New Tab" None (HostClick 0).
Definition closeTab : SubmenuEntry := Item "Close Tab" (Some true) (HostClick 1).
Definition debugItem : SubmenuEntry := Item "Debug" (Some false) (HostClick 2).
Definition undo : SubmenuEntry := Item "Undo" None (HostClick 3).
Definition zoomIn : SubmenuEntry := Item "Zoom In" None (HostClick 4).

Definition fileMenu : MenuEntry :=
  {| label := "File"; submenu := [newTab; Separator; debugItem; closeTab] |}.
Definition editMenu : MenuEntry :=
  {| label := "Edit"; submenu := [undo] |}.
Definition viewMenu : MenuEntry :=
  {| label := "View"; submenu := [zoomIn] |}.

Definition exampleTemplate : list MenuEntry := [fileMenu; editMenu; viewMenu].

(** The spans are laid out left to right, 50 wide and 20 high. *)
Definition exampleLayout (i : nat) : Rect :=
  {| rect_left := 50 * Z.of_nat i; rect_top := 0;
     rect_right := 50 * Z.of_nat i + 50; rect_bottom := 20 |}.

Definition webview : string := "webview".

(** Only the web frame matches its selector, once. *)
Definition exampleOthers (selector : string) : nat :=
  if (selector =? webview)%string then 1%nat else 0%nat.

Definition menubarProps (t : list MenuEntry) (selected : option string)
    (index : Z) (hide : bool) (detail : option ContextMenuDetail)
    : MenubarProps :=
  {| template := t;
     selectedLabel := selected;
     selectedIndex := index;
     autohide := hide;
     contextMenuDetail := detail;
     lastFocusedSelector := Some webview |}.

Definition exampleProps (selected : option string) (index : Z)
    (detail : option ContextMenuDetail) : MenubarProps :=
  menubarProps exampleTemplate selected index false detail.

(** A label with an apostrophe.  The selector built around it ends its
    string after What and goes on with s New, which no selector does. *)
Definition whatsNew : string := "What's New".

Definition exampleSpecial (selector : string) : Queried :=
  if (selector =? Menubar.menubarItemSelector (Some whatsNew))%string
  then Invalid
  else Matched [].

Definition whatsNewMenu : MenuEntry :=
  {| label := whatsNew;
     submenu := [Item "Release Notes" None (HostClick 5)] |}.

(** File is selected and the next label holds an apostrophe. *)
Definition beforeWhatsNew : MenubarProps :=
  {| template := [fileMenu; whatsNewMenu];
     selectedLabel := Some "File";
     selectedIndex := 0;
     autohide := false;
     contextMenuDetail := None;
     lastFocusedSelector := Some webview |}.

(** The label with the apostrophe is selected and no menu is open. *)
Definition whatsNewSelected : MenubarProps :=
  {| template := [fileMenu; whatsNewMenu];
     selectedLabel := Some whatsNew;
     selectedIndex := 0;
     autohide := false;
     contextMenuDetail := None;
     lastFocusedSelector := Some webview |}.

(** The document in which the menubar of [props] is rendered. *)
Definition documentWith (props : MenubarProps) : Dom :=
  document_of exampleLayout exampleOthers exampleSpecial props.

Definition exampleDom : Dom := documentWith (exampleProps None 0 None).

(** A menu without entries. *)
Definition helpMenu : MenuEntry := {| label := "Help"; submenu := [] |}.

(** File is selected, its menu is open, and the next menu is empty. *)
Definition beforeEmptyMenu : MenubarProps :=
  menubarProps [fileMenu; helpMenu] (Some "File") 0 false
    (Some {| detail_left := 0; detail_top := 20;
             detail_template := map (wrap_click (Some webview)) (submenu fileMenu) |}).

(** The menubar is hidden, nothing is selected, and a context menu of the
    page is open. *)
Definition pageMenuOpen : MenubarProps :=
  menubarProps exampleTemplate None 0 true
    (Some {| detail_left := 300; detail_top := 200;
             detail_template := [Item "Reload" None (HostClick 9)] |}).

(** A template with the label File twice: both spans match the selector of
    File.  File is selected and no context menu is open. *)
Definition twoFileMenus : MenubarProps :=
  menubarProps [fileMenu; fileMenu] (Some "File") 0 false None.

Definition someDetail : ContextMenuDetail :=
  {| detail_left := 0; detail_top := 20; detail_template := [] |}.

(** The props of the item rendered for [entry] under a menubar whose
    selected label is [selected]. *)
Definition itemProps (entry : MenuEntry) (selected : option string)
    : MenubarItem.Props :=
  {| MenubarItem.label := label entry;
     MenubarItem.submenu := submenu entry;
     MenubarItem.menubar := exampleProps selected 0 None;
     MenubarItem.lastFocusedSelector := Some webview;
     MenubarItem.selected := strict_eq (label entry) selected |}.

(** An entry whose label is the empty string. *)
Definition unnamedMenu : MenuEntry := {| label := ""; submenu := [newTab] |}.

Definition clickAt (rect : Rect) : MouseEvent :=
  {| stopPropagation := true; target_getBoundingClientRect := rect |}.

(** What a click on an item does to the event before anything else. *)
Definition stopped (ev : MouseEvent) : list effect :=
  if stopPropagation ev then [StopPropagation] else [].

(** The reading of [MenubarItem.onClick] that compares the two labels and
    nothing else: equal labels deselect, different labels select and open
    the context menu. *)
Definition toggles_on_equal_labels (props : MenubarItem.Props)
    (ev : MouseEvent) : Prop :=
  (selectedLabel (MenubarItem.menubar props) = Some (MenubarItem.label props) ->
   MenubarItem.onClick props (Some ev) =
     (stopped ev ++ [SetContextMenuDetail None; SetMenubarSelectedLabel None],
      Normal tt)) /\
  (selectedLabel (MenubarItem.menubar props) <> Some (MenubarItem.label props) ->
   MenubarItem.onClick props (Some ev) =
     (stopped ev ++
      SetMenubarSelectedLabel (Some (MenubarItem.label props)) ::
      trace (showContextMenu (target_getBoundingClientRect ev)
               (MenubarItem.submenu props)
               (MenubarItem.lastFocusedSelector props)),
      Normal tt)).

(** A trace resets the submenu selection and opens a context menu. *)
Definition auto_opens (t : list effect) : Prop :=
  In (SetSubmenuSelectedIndex 0) t /\
  exists detail, In (SetContextMenuDetail (Some detail)) t.

(** The reading of the LEFT/RIGHT case in which the context menu follows
    the selection exactly when one is open, the next label has a non-empty
    submenu and the rectangle of the next label is found. *)
Definition opens_iff_next_submenu_nonempty (keyCodes : KeyCodes)
    (props : MenubarProps) (dom : Dom) (e : KeyEvent) : Prop :=
  auto_opens (trace (Menubar.onKeyDown keyCodes props dom e)) <->
  (contextMenuDetail props <> None /\
   (exists submenu,
      Menubar.getTemplateByLabel props (Menubar.nextLabel keyCodes props e)
        = Some submenu /\ submenu <> []) /\
   exists rect,
     Menubar.getRectByLabel dom (Menubar.nextLabel keyCodes props e)
       = Normal (Some rect)).

(** * The keydown listeners of the document *)

(** A listener is the bound [onKeyDown] of a menubar.  The constructor
    binds it once, so that a menubar adds and removes one and the same
    function; it is named by its menubar. *)
Definition Listener := nat.

(** [document.addEventListener('keydown', f)]: a function that is
    registered already is not registered again. *)
Definition addEventListener (listeners : list Listener) (f : Listener)
    : list Listener :=
  if existsb (Nat.eqb f) listeners then listeners else listeners ++ [f].

(** [document.removeEventListener('keydown', f)] *)
Fixpoint removeEventListener (listeners : list Listener) (f : Listener)
    : list Listener :=
  match listeners with
  | [] => []
  | g :: listeners' =>
      if (f =? g)%nat then listeners'
      else g :: removeEventListener listeners' f
  end.

Definition componentWillMount (this : Listener) (document : list Listener)
    : list Listener :=
  addEventListener document this.

Definition componentWillUnmount (this : Listener) (document : list Listener)
    : list Listener :=
  removeEventListener document this.

(** A keydown event of the document: the listeners run in the order of
    their registration, each menubar on its current props. *)
Fixpoint keydown (keyCodes : KeyCodes) (props_of : Listener -> MenubarProps)
    (dom : Dom) (document : list Listener) (e : KeyEvent) : list effect :=
  match document with
  | [] => []
  | f :: document' =>
      trace (Menubar.onKeyDown keyCodes (props_of f) dom e)
      ++ keydown keyCodes props_of dom document' e
  end.

(** * Properties *)

(** ** Computations *)

Lemma trace_bind {A B} (m : Eff A) (k : A -> Eff B) a :
  result m = Normal a ->
  trace (bind m k) = trace m ++ trace (k a) /\
  result (bind m k) = result (k a).
Proof.
  destruct m as [t c]; simpl; intros ->.
  unfold bind; destruct (k a); auto.
Qed.

Lemma bind_throw {A B} (m : Eff A) (k : A -> Eff B) ex :
  result m = Throw ex -> bind m k = (trace m, Throw ex).
Proof.
  destruct m as [t c]; simpl; intros ->; reflexivity.
Qed.

(** ** Immutable lists *)

Lemma size_nonneg {A} (l : list A) : 0 <= Immutable.size l.
Proof. unfold Immutable.size; lia. Qed.

Lemma findIndex_range {A} (f : A -> bool) (l : list A) :
  Immutable.findIndex f l = -1 \/
  0 <= Immutable.findIndex f l < Immutable.size l.
Proof.
  induction l as [|x l IH]; simpl; [now left|].
  destruct (f x).
  - right; unfold Immutable.size; simpl; lia.
  - destruct (Z.eqb_spec (Immutable.findIndex f l) (-1)) as [E|E]; [now left|].
    right; unfold Immutable.size in *; simpl List.length; lia.
Qed.

Lemma findIndex_none {A} (f : A -> bool) (l : list A) :
  Immutable.findIndex f l = -1 <-> find f l = None.
Proof.
  induction l as [|x l IH]; simpl; [tauto|].
  destruct (f x); [split; discriminate|].
  destruct (Z.eqb_spec (Immutable.findIndex f l) (-1)) as [E|E].
  - tauto.
  - pose proof (findIndex_range f l). split.
    + intros; exfalso; lia.
    + intros Hn; apply IH in Hn; congruence.
Qed.

Lemma findIndex_found {A} (f : A -> bool) (l : list A) :
  Immutable.findIndex f l <> -1 ->
  exists x, nth_error l (Z.to_nat (Immutable.findIndex f l)) = Some x /\
            f x = true /\
            forall j y, (j < Z.to_nat (Immutable.findIndex f l))%nat ->
                        nth_error l j = Some y -> f y = false.
Proof.
  induction l as [|x l IH]; simpl; [congruence|].
  destruct (f x) eqn:Fx.
  - intros _. exists x. simpl. repeat split; auto. intros; lia.
  - destruct (Z.eqb_spec (Immutable.findIndex f l) (-1)) as [E|E]; [congruence|].
    intros _. destruct (IH E) as (y & Hn & Fy & Hmin).
    pose proof (findIndex_range f l) as R.
    replace (Z.to_nat (Immutable.findIndex f l + 1))
      with (S (Z.to_nat (Immutable.findIndex f l))) by lia.
    exists y. simpl. repeat split; auto.
    intros [|j] z Hj Hz; simpl in Hz.
    + congruence.
    + apply (Hmin j); auto; lia.
Qed.

Lemma get_in_range {A} (l : list A) (i : Z) :
  0 <= i < Immutable.size l ->
  Immutable.get l i = nth_error l (Z.to_nat i).
Proof.
  intros H. unfold Immutable.get.
  destruct (Z.ltb_spec i 0); [lia|].
  destruct (Z.leb_spec 0 i); [|lia].
  destruct (Z.ltb_spec i (Immutable.size l)); [reflexivity|lia].
Qed.

Lemma get_in_range_some {A} (l : list A) (i : Z) :
  0 <= i < Immutable.size l -> exists x, Immutable.get l i = Some x.
Proof.
  intros H. rewrite get_in_range by assumption.
  destruct (nth_error l (Z.to_nat i)) eqn:E; [eauto|].
  apply nth_error_None in E. unfold Immutable.size in H. lia.
Qed.

(** ** Key codes *)

Lemma keyCodes_neq (keyCodes : KeyCodes) :
  ENTER keyCodes <> LEFT keyCodes /\ ENTER keyCodes <> UP keyCodes /\
  ENTER keyCodes <> RIGHT keyCodes /\ ENTER keyCodes <> DOWN keyCodes /\
  LEFT keyCodes <> UP keyCodes /\ LEFT keyCodes <> RIGHT keyCodes /\
  LEFT keyCodes <> DOWN keyCodes /\ UP keyCodes <> RIGHT keyCodes /\
  UP keyCodes <> DOWN keyCodes /\ RIGHT keyCodes <> DOWN keyCodes.
Proof.
  pose proof (keyCodes_distinct keyCodes) as H.
  repeat match goal with
         | H : NoDup (_ :: _) |- _ => inversion H; subst; clear H
         end.
  simpl in *. intuition congruence.
Qed.

Lemma switch_ENTER keyCodes props dom e :
  which e = ENTER keyCodes ->
  Menubar.onKeyDown keyCodes props dom e = Menubar.case_ENTER props.
Proof.
  intros H. unfold Menubar.onKeyDown. rewrite H, Z.eqb_refl. reflexivity.
Qed.

Lemma switch_LEFT_RIGHT keyCodes props dom e :
  which e = LEFT keyCodes \/ which e = RIGHT keyCodes ->
  Menubar.onKeyDown keyCodes props dom e =
  Menubar.case_LEFT_RIGHT keyCodes props dom e.
Proof.
  intros H. unfold Menubar.onKeyDown.
  pose proof (keyCodes_neq keyCodes) as N.
  destruct (Z.eqb_spec (which e) (ENTER keyCodes)) as [E|E].
  - destruct H as [H|H]; rewrite H in E; intuition congruence.
  - destruct H as [H|H]; rewrite H, Z.eqb_refl; [|rewrite orb_true_r]; reflexivity.
Qed.

Lemma switch_UP_DOWN keyCodes props dom e :
  which e = UP keyCodes \/ which e = DOWN keyCodes ->
  Menubar.onKeyDown keyCodes props dom e =
  Menubar.case_UP_DOWN keyCodes props dom e.
Proof.
  intros H. unfold Menubar.onKeyDown.
  pose proof (keyCodes_neq keyCodes) as N.
  destruct (Z.eqb_spec (which e) (ENTER keyCodes)) as [E|E];
    [destruct H as [H|H]; rewrite H in E; intuition congruence|].
  destruct (Z.eqb_spec (which e) (LEFT keyCodes)) as [L|L];
    [destruct H as [H|H]; rewrite H in L; intuition congruence|].
  destruct (Z.eqb_spec (which e) (RIGHT keyCodes)) as [R|R];
    [destruct H as [H|H]; rewrite H in R; intuition congruence|].
  simpl.
  destruct H as [H|H]; rewrite H, Z.eqb_refl; [|rewrite orb_true_r]; reflexivity.
Qed.

Lemma switch_default keyCodes props dom e :
  which e <> ENTER keyCodes -> which e <> LEFT keyCodes ->
  which e <> RIGHT keyCodes -> which e <> UP keyCodes ->
  which e <> DOWN keyCodes ->
  Menubar.onKeyDown keyCodes props dom e = ret tt.
Proof.
  intros. unfold Menubar.onKeyDown.
  repeat match goal with
         | |- context [?a =? ?b] => destruct (Z.eqb_spec a b); [congruence|]
         end.
  reflexivity.
Qed.

(** ** showContextMenu *)

Lemma click_trace (dom : Dom) (lfs : option string) (l : string) :
  exists focused,
    click dom lfs l =
      ([PreventDefault] ++ focused ++ [ClickMenubarSubmenu (Some l)], Normal tt) /\
    ((exists selector,
        lfs = Some selector /\ selector <> "" /\
        querySelectorAll_length dom selector = 1%nat /\
        focused = [Focus selector])
     \/
     (focused = [] /\
      forall selector,
        lfs = Some selector ->
        selector = "" \/ querySelectorAll_length dom selector <> 1%nat)).
Proof.
  unfold click. destruct lfs as [s|]; simpl.
  - destruct (String.eqb_spec s "") as [E|E]; simpl.
    + exists []. split; [reflexivity|]. right. split; [reflexivity|].
      intros ? [= <-]. now left.
    + destruct (Nat.eqb_spec (querySelectorAll_length dom s) 1) as [C|C]; simpl.
      * exists [Focus s]. split; [reflexivity|]. left. exists s. auto.
      * exists []. split; [reflexivity|]. right. split; [reflexivity|].
        intros ? [= <-]. now right.
  - exists []. split; [reflexivity|]. right. split; [reflexivity|].
    intros ? [=].
Qed.

(** C5. [showContextMenu rect submenu lastFocusedSelector] dispatches one
    set-context-menu-detail intent, positioned at the left and the bottom
    of [rect].  Its template has the entries of [submenu] in order: a
    separator is passed through as it is, and any other entry keeps its
    label and visibility and gets a click handler that prevents default,
    focuses the element matching [lastFocusedSelector] exactly when the
    selector is non-empty and one element matches it, and then dispatches
    the click of the entry's label. *)
Theorem showContextMenu_dispatches_wrapped_template :
  forall (rect : Rect) (submenu : list SubmenuEntry) (lfs : option string),
  exists detail,
    showContextMenu rect submenu lfs =
      ([SetContextMenuDetail (Some detail)], Normal tt) /\
    detail_left detail = rect_left rect /\
    detail_top detail = rect_bottom rect /\
    List.length (detail_template detail) = List.length submenu /\
    forall i,
      match nth_error submenu i with
      | None => nth_error (detail_template detail) i = None
      | Some Separator => nth_error (detail_template detail) i = Some Separator
      | Some (Item l v _) =>
          exists handler,
            nth_error (detail_template detail) i = Some (Item l v handler) /\
            forall dom, exists focused,
              run_click dom handler =
                Some ([PreventDefault] ++ focused ++ [ClickMenubarSubmenu (Some l)],
                      Normal tt) /\
              ((exists selector,
                  lfs = Some selector /\ selector <> "" /\
                  querySelectorAll_length dom selector = 1%nat /\
                  focused = [Focus selector])
               \/
               (focused = [] /\
                forall selector,
                  lfs = Some selector ->
                  selector = "" \/ querySelectorAll_length dom selector <> 1%nat))
      end.
Proof.
  intros rect submenu lfs. eexists. split; [reflexivity|]. simpl.
  split; [reflexivity|]. split; [reflexivity|].
  split; [apply length_map|].
  intros i. rewrite nth_error_map.
  destruct (nth_error submenu i) as [[|l v c]|]; simpl; try reflexivity.
  eexists. split; [reflexivity|]. intros dom. simpl.
  destruct (click_trace dom lfs l) as (focused & -> & H).
  exists focused. split; [reflexivity|exact H].
Qed.

Example showContextMenu_file :
  showContextMenu (exampleLayout 0) (submenu fileMenu) (Some webview) =
  ([SetContextMenuDetail (Some {|
      detail_left := 0;
      detail_top := 20;
      detail_template :=
        [Item "New Tab" None (MenubarClick (Some webview) "New Tab");
         Separator;
         Item "Debug" (Some false) (MenubarClick (Some webview) "Debug");
         Item "Close Tab" (Some true) (MenubarClick (Some webview) "Close Tab")]
    |})], Normal tt).
Proof. reflexivity. Qed.

Example click_refocuses_single_match :
  click exampleDom (Some webview) "New Tab" =
  ([PreventDefault; Focus webview; ClickMenubarSubmenu (Some "New Tab")],
   Normal tt).
Proof. reflexivity. Qed.

Example click_without_match :
  click exampleDom (Some "#nowhere") "New Tab" =
  ([PreventDefault; ClickMenubarSubmenu (Some "New Tab")], Normal tt).
Proof. reflexivity. Qed.

(** ** MenubarItem.onClick *)

Lemma onClick_deselect (props : MenubarItem.Props) (ev : MouseEvent) :
  truthy_string (selectedLabel (MenubarItem.menubar props)) = true ->
  selectedLabel (MenubarItem.menubar props) = Some (MenubarItem.label props) ->
  MenubarItem.onClick props (Some ev) =
    (stopped ev ++ [SetContextMenuDetail None; SetMenubarSelectedLabel None],
     Normal tt).
Proof.
  intros T E. unfold MenubarItem.onClick, stopped.
  rewrite T, E. simpl. rewrite String.eqb_refl.
  destruct (stopPropagation ev); reflexivity.
Qed.

Lemma onClick_select (props : MenubarItem.Props) (ev : MouseEvent) :
  truthy_string (selectedLabel (MenubarItem.menubar props)) = false \/
  selectedLabel (MenubarItem.menubar props) <> Some (MenubarItem.label props) ->
  MenubarItem.onClick props (Some ev) =
    (stopped ev ++
     [SetMenubarSelectedLabel (Some (MenubarItem.label props));
      SetContextMenuDetail (Some {|
        detail_left := rect_left (target_getBoundingClientRect ev);
        detail_top := rect_bottom (target_getBoundingClientRect ev);
        detail_template :=
          map (wrap_click (MenubarItem.lastFocusedSelector props))
              (MenubarItem.submenu props) |})],
     Normal tt).
Proof.
  intros H. unfold MenubarItem.onClick, stopped.
  assert (truthy_string (selectedLabel (MenubarItem.menubar props)) &&
          strict_eq (MenubarItem.label props)
            (selectedLabel (MenubarItem.menubar props)) = false) as ->.
  { destruct H as [-> | N]; [reflexivity|].
    apply andb_false_intro2.
    destruct (selectedLabel (MenubarItem.menubar props)) as [s|]; simpl; auto.
    destruct (String.eqb_spec (MenubarItem.label props) s); congruence. }
  destruct (stopPropagation ev); reflexivity.
Qed.

(** C6, as the code has it.  A click on an item whose label is the
    parent's selected label, that label being present and not the empty
    string, dispatches exactly a clear of the context-menu detail and a
    clear of the selected label, and opens no context menu.  Any other click
    dispatches the item's label as the new selected label and then opens a
    context menu anchored at the left and bottom of the bounding rectangle
    of the clicked element, showing the item's submenu. *)
Theorem onClick_toggles_selected_item :
  forall (props : MenubarItem.Props) (ev : MouseEvent),
    (selectedLabel (MenubarItem.menubar props) = Some (MenubarItem.label props) /\
     MenubarItem.label props <> "" ->
     MenubarItem.onClick props (Some ev) =
       (stopped ev ++ [SetContextMenuDetail None; SetMenubarSelectedLabel None],
        Normal tt)) /\
    (selectedLabel (MenubarItem.menubar props) <> Some (MenubarItem.label props) \/
     MenubarItem.label props = "" ->
     MenubarItem.onClick props (Some ev) =
       (stopped ev ++
        SetMenubarSelectedLabel (Some (MenubarItem.label props)) ::
        trace (showContextMenu (target_getBoundingClientRect ev)
                 (MenubarItem.submenu props)
                 (MenubarItem.lastFocusedSelector props)),
        Normal tt)).
Proof.
  intros props ev. split.
  - intros [E N]. apply onClick_deselect; auto.
    rewrite E. simpl. destruct (String.eqb_spec (MenubarItem.label props) "");
      [congruence|reflexivity].
  - intros H. rewrite onClick_select; [reflexivity|].
    destruct H as [N|E]; [now right|].
    destruct (selectedLabel (MenubarItem.menubar props)) as [s|] eqn:S.
    + destruct (String.eqb_spec s (MenubarItem.label props)) as [->|D].
      * left. simpl. rewrite E. reflexivity.
      * right. congruence.
    + now left.
Qed.

(** The labels are equal, both the empty string, and the click selects. *)
Lemma onClick_equal_empty_labels_select :
  ~ toggles_on_equal_labels (itemProps unnamedMenu (Some ""))
      (clickAt (exampleLayout 0)).
Proof.
  intros [H _]. specialize (H eq_refl). vm_compute in H. discriminate H.
Qed.

Example onClick_selected_file :
  MenubarItem.onClick (itemProps fileMenu (Some "File"))
    (Some (clickAt (exampleLayout 0))) =
  ([StopPropagation; SetContextMenuDetail None; SetMenubarSelectedLabel None],
   Normal tt).
Proof. reflexivity. Qed.

Example onClick_other_item :
  MenubarItem.onClick (itemProps editMenu (Some "File"))
    (Some (clickAt (exampleLayout 1))) =
  ([StopPropagation; SetMenubarSelectedLabel (Some "Edit");
    SetContextMenuDetail (Some {|
      detail_left := 50; detail_top := 20;
      detail_template := [Item "Undo" None (MenubarClick (Some webview) "Undo")]
    |})], Normal tt).
Proof. reflexivity. Qed.

(** C10. When the parent's selected label is absent or the empty string, a
    click on an item, also on one whose label is equal to the selected
    label, dispatches the item's label as the new selected label and opens
    its context menu; it clears neither the selection nor the context
    menu. *)
Theorem onClick_deselects_only_truthy_label :
  forall (props : MenubarItem.Props) (ev : MouseEvent),
    selectedLabel (MenubarItem.menubar props) = None \/
    selectedLabel (MenubarItem.menubar props) = Some "" ->
    MenubarItem.onClick props (Some ev) =
      (stopped ev ++
       SetMenubarSelectedLabel (Some (MenubarItem.label props)) ::
       trace (showContextMenu (target_getBoundingClientRect ev)
                (MenubarItem.submenu props)
                (MenubarItem.lastFocusedSelector props)),
       Normal tt) /\
    ~ In (SetMenubarSelectedLabel None)
         (trace (MenubarItem.onClick props (Some ev))) /\
    ~ In (SetContextMenuDetail None)
         (trace (MenubarItem.onClick props (Some ev))).
Proof.
  intros props ev H.
  assert (truthy_string (selectedLabel (MenubarItem.menubar props)) = false) as F
    by (destruct H as [-> | ->]; reflexivity).
  rewrite (onClick_select props ev (or_introl F)).
  split; [reflexivity|].
  unfold stopped; destruct (stopPropagation ev); simpl;
    split; intros K; intuition discriminate.
Qed.

Lemma onClick_deselects_only_truthy_label_witness :
  MenubarItem.onClick (itemProps unnamedMenu (Some ""))
    (Some (clickAt (exampleLayout 0))) =
  ([StopPropagation; SetMenubarSelectedLabel (Some "");
    SetContextMenuDetail (Some {|
      detail_left := 0; detail_top := 20;
      detail_template := [Item "New Tab" None (MenubarClick (Some webview) "New Tab")]
    |})], Normal tt).
Proof.
  exact (proj1 (onClick_deselects_only_truthy_label
                  (itemProps unnamedMenu (Some "")) (clickAt (exampleLayout 0))
                  (or_intror eq_refl))).
Defined.

(** ** The derived views of the menubar *)

Lemma getTemplateByLabel_none (props : MenubarProps) (l : option string) :
  Menubar.getTemplateByLabel props l = None <->
  forall element, In element (template props) ->
                  strict_eq (label element) l = false.
Proof.
  unfold Menubar.getTemplateByLabel.
  destruct (find _ (template props)) as [element|] eqn:F; split.
  - discriminate.
  - intros H. apply find_some in F as [Hin Heq].
    rewrite (H element Hin) in Heq. discriminate.
  - intros _ element Hin. exact (find_none _ _ F element Hin).
  - reflexivity.
Qed.

Lemma getTemplateByLabel_member (props : MenubarProps) (element : MenuEntry) :
  In element (template props) ->
  exists submenu,
    Menubar.getTemplateByLabel props (Some (label element)) = Some submenu.
Proof.
  intros Hin.
  destruct (Menubar.getTemplateByLabel props (Some (label element)))
    as [s|] eqn:G; [eauto|].
  rewrite getTemplateByLabel_none in G. specialize (G element Hin).
  simpl in G. rewrite String.eqb_refl in G. discriminate.
Qed.

Lemma selectedTemplateItemsOnly_some (props : MenubarProps) t :
  Menubar.selectedTemplate props = Some t ->
  Menubar.selectedTemplateItemsOnly props = Normal (filter Menubar.itemsOnly t).
Proof.
  intros H. unfold Menubar.selectedTemplateItemsOnly. rewrite H. reflexivity.
Qed.

Lemma selectedIndexMax_some (props : MenubarProps) t :
  Menubar.selectedTemplate props = Some t ->
  Menubar.selectedIndexMax props =
    Normal (Immutable.size (filter Menubar.itemsOnly t)).
Proof.
  intros H. unfold Menubar.selectedIndexMax.
  rewrite (selectedTemplateItemsOnly_some props t H).
  destruct (Z.ltb_spec 0 (Immutable.size (filter Menubar.itemsOnly t)));
    [reflexivity|].
  pose proof (size_nonneg (filter Menubar.itemsOnly t)).
  f_equal. lia.
Qed.

Lemma itemsOnly_true (x : SubmenuEntry) :
  Menubar.itemsOnly x = true <->
  x <> Separator /\ forall l c, x <> Item l (Some false) c.
Proof.
  destruct x as [|l [[|]|] c]; simpl; split;
    try discriminate; try (intros _; split; [discriminate|intros; discriminate]);
    auto.
  - intros [H _]. congruence.
  - intros [_ H]. exfalso. exact (H l c eq_refl).
Qed.

(** C7. For every selected template, the selected visible items are that
    template filtered, in order: separators are left out, entries whose
    [visible] flag is false are left out, entries whose flag is true are
    kept, and entries without a [visible] key are kept. *)
Theorem selectedTemplateItemsOnly_filters_visible :
  forall (props : MenubarProps) (t : list SubmenuEntry),
    Menubar.selectedTemplate props = Some t ->
    exists keep : SubmenuEntry -> bool,
      (forall x, keep x = true <->
                 x <> Separator /\ forall l c, x <> Item l (Some false) c) /\
      Menubar.selectedTemplateItemsOnly props = Normal (filter keep t) /\
      ~ In Separator (filter keep t) /\
      (forall l c, ~ In (Item l (Some false) c) (filter keep t)) /\
      (forall l c, In (Item l (Some true) c) t ->
                   In (Item l (Some true) c) (filter keep t)) /\
      (forall l c, In (Item l None c) t -> In (Item l None c) (filter keep t)).
Proof.
  intros props t H. exists Menubar.itemsOnly.
  split; [exact itemsOnly_true|].
  split; [exact (selectedTemplateItemsOnly_some props t H)|].
  repeat split.
  - intros K. apply filter_In in K as [_ K]. discriminate.
  - intros l c K. apply filter_In in K as [_ K]. discriminate.
  - intros l c K. apply filter_In. split; auto.
  - intros l c K. apply filter_In. split; auto.
Qed.

Lemma selectedTemplateItemsOnly_filters_visible_witness :
  exists keep : SubmenuEntry -> bool,
    Menubar.selectedTemplateItemsOnly (exampleProps (Some "File") 0 None) =
    Normal (filter keep [newTab; Separator; debugItem; closeTab]).
Proof.
  destruct (selectedTemplateItemsOnly_filters_visible
              (exampleProps (Some "File") 0 None)
              [newTab; Separator; debugItem; closeTab] eq_refl)
    as (keep & _ & E & _).
  exists keep. exact E.
Defined.

Example selectedTemplateItemsOnly_file :
  Menubar.selectedTemplateItemsOnly (exampleProps (Some "File") 0 None) =
  Normal [newTab; closeTab].
Proof. reflexivity. Qed.

Example selectedIndexMax_file :
  Menubar.selectedIndexMax (exampleProps (Some "File") 0 None) = Normal 2.
Proof. reflexivity. Qed.

Example selectedTemplateItemsOnly_unknown_label :
  Menubar.selectedTemplateItemsOnly (exampleProps (Some "Help") 0 None) =
  Throw TypeError.
Proof. reflexivity. Qed.

(** ** wrappingClamp and the next top-level index *)

Lemma wrappingClamp_range (value min max : Z) :
  min <= max -> min <= wrappingClamp value min max <= max.
Proof.
  intros H. unfold wrappingClamp.
  destruct (Z.ltb_spec max value); [lia|].
  destruct (Z.ltb_spec value min); lia.
Qed.

Lemma nextIndex_range keyCodes (props : MenubarProps) (e : KeyEvent) :
  0 < Immutable.size (template props) ->
  0 <= Menubar.nextIndex keyCodes props e < Immutable.size (template props).
Proof.
  intros H. unfold Menubar.nextIndex.
  destruct (Z.eqb_spec (Menubar.selectedLabelIndex props) (-1)); [lia|].
  pose proof (wrappingClamp_range
    (Menubar.selectedLabelIndex props +
       (if which e =? LEFT keyCodes then -1 else 1))
    0 (Immutable.size (template props) - 1)).
  lia.
Qed.

Lemma nextLabel_some keyCodes (props : MenubarProps) (e : KeyEvent) :
  0 < Immutable.size (template props) ->
  exists element,
    nth_error (template props) (Z.to_nat (Menubar.nextIndex keyCodes props e))
      = Some element /\
    Menubar.nextLabel keyCodes props e = Some (label element).
Proof.
  intros H. pose proof (nextIndex_range keyCodes props e H) as R.
  unfold Menubar.nextLabel, Menubar.getIn_label.
  rewrite get_in_range by assumption.
  destruct (nth_error _ _) as [element|] eqn:E.
  - exists element. auto.
  - apply nth_error_None in E. unfold Immutable.size in R. lia.
Qed.

(** ** The cases of onKeyDown *)

(** The guard [!this.props.autohide && !this.props.selectedLabel] of the
    arrow keys. *)
Lemma arrows_guard (props : MenubarProps) :
  negb (autohide props) && negb (truthy_string (selectedLabel props)) = false
  <-> autohide props = true \/ truthy_string (selectedLabel props) = true.
Proof.
  destruct (autohide props), (truthy_string (selectedLabel props)); simpl;
    intuition discriminate.
Qed.

Lemma case_ENTER_run (props : MenubarProps) :
  Menubar.case_ENTER props =
  match Menubar.selectedTemplate props with
  | Some t =>
      ([PreventDefault;
        ClickMenubarSubmenu
          (Menubar.getIn_item_label (filter Menubar.itemsOnly t)
             (selectedIndex props));
        ResetMenuState], Normal tt)
  | None => ([PreventDefault], Normal tt)
  end.
Proof.
  unfold Menubar.case_ENTER.
  destruct (Menubar.selectedTemplate props) as [t|] eqn:T; simpl.
  - rewrite (selectedTemplateItemsOnly_some props t T). reflexivity.
  - reflexivity.
Qed.

Lemma case_arrows_blocked keyCodes (props : MenubarProps) dom e :
  autohide props = false -> truthy_string (selectedLabel props) = false ->
  Menubar.case_LEFT_RIGHT keyCodes props dom e = ([], Normal tt) /\
  Menubar.case_UP_DOWN keyCodes props dom e = ([], Normal tt).
Proof.
  intros A S. unfold Menubar.case_LEFT_RIGHT, Menubar.case_UP_DOWN.
  rewrite A, S. split; reflexivity.
Qed.

Lemma case_LEFT_RIGHT_run keyCodes (props : MenubarProps) dom e :
  autohide props = true \/ truthy_string (selectedLabel props) = true ->
  0 < Immutable.size (template props) ->
  exists next submenu,
    Menubar.nextLabel keyCodes props e = Some next /\
    Menubar.getTemplateByLabel props (Some next) = Some submenu /\
    Menubar.case_LEFT_RIGHT keyCodes props dom e =
    match Menubar.getRectByLabel dom (Some next) with
    | Throw ex => ([PreventDefault], Throw ex)
    | Normal nextRect =>
        (PreventDefault :: SetMenubarSelectedLabel (Some next) ::
         match contextMenuDetail props, Menubar.selectedTemplate props,
               nextRect with
         | Some _, Some _, Some rect =>
             [SetSubmenuSelectedIndex 0;
              SetContextMenuDetail (Some {|
                detail_left := rect_left rect;
                detail_top := rect_bottom rect;
                detail_template :=
                  map (wrap_click (lastFocusedSelector props)) submenu
              |})]
         | _, _, _ => []
         end, Normal tt)
    end.
Proof.
  intros G H. apply arrows_guard in G.
  destruct (nextLabel_some keyCodes props e H) as (element & Hn & Hl).
  destruct (getTemplateByLabel_member props element (nth_error_In _ _ Hn))
    as (submenu & Hs).
  exists (label element), submenu. repeat split; auto.
  unfold Menubar.case_LEFT_RIGHT. rewrite G.
  apply Z.ltb_lt in H. rewrite H. cbv zeta. rewrite Hl, Hs.
  destruct (Menubar.getRectByLabel dom (Some (label element))) as [[rect|]|ex];
    [| |reflexivity];
    destruct (contextMenuDetail props), (Menubar.selectedTemplate props);
    reflexivity.
Qed.

Lemma case_LEFT_RIGHT_empty keyCodes (props : MenubarProps) dom e :
  autohide props = true \/ truthy_string (selectedLabel props) = true ->
  template props = [] ->
  Menubar.case_LEFT_RIGHT keyCodes props dom e = ([PreventDefault], Normal tt).
Proof.
  intros G H. apply arrows_guard in G.
  unfold Menubar.case_LEFT_RIGHT. rewrite G, H. reflexivity.
Qed.

Lemma case_UP_DOWN_run keyCodes (props : MenubarProps) dom e :
  autohide props = true \/ truthy_string (selectedLabel props) = true ->
  Menubar.case_UP_DOWN keyCodes props dom e =
  match truthy_string (selectedLabel props), Menubar.selectedTemplate props with
  | true, Some t =>
      let moved :=
        ([PreventDefault;
          SetSubmenuSelectedIndex
            (wrappingClamp
               (selectedIndex props + (if which e =? UP keyCodes then -1 else 1))
               0
               (Immutable.size (filter Menubar.itemsOnly t) - 1))],
         Normal tt) in
      match contextMenuDetail props with
      | Some _ => moved
      | None =>
          match Menubar.selectedRect dom props with
          | Throw ex => ([PreventDefault], Throw ex)
          | Normal (Some rect) =>
              ([PreventDefault; SetSubmenuSelectedIndex 0;
                SetContextMenuDetail (Some {|
                  detail_left := rect_left rect;
                  detail_top := rect_bottom rect;
                  detail_template :=
                    map (wrap_click (lastFocusedSelector props)) t
                |})], Normal tt)
          | Normal None => moved
          end
      end
  | _, _ => ([PreventDefault], Normal tt)
  end.
Proof.
  intros G. apply arrows_guard in G.
  unfold Menubar.case_UP_DOWN. rewrite G.
  destruct (truthy_string (selectedLabel props)); [|reflexivity].
  destruct (Menubar.selectedTemplate props) as [t|] eqn:T; [|reflexivity].
  unfold Menubar.nextSubmenuIndex.
  rewrite (selectedIndexMax_some props t T).
  destruct (contextMenuDetail props); [reflexivity|].
  destruct (Menubar.selectedRect dom props) as [[rect|]|ex]; reflexivity.
Qed.

Lemma case_arrows_head keyCodes (props : MenubarProps) dom e :
  autohide props = true \/ truthy_string (selectedLabel props) = true ->
  (exists rest,
     trace (Menubar.case_LEFT_RIGHT keyCodes props dom e) = PreventDefault :: rest)
  /\
  (exists rest,
     trace (Menubar.case_UP_DOWN keyCodes props dom e) = PreventDefault :: rest).
Proof.
  intros G. split.
  - destruct (template props) as [|m t] eqn:T.
    + rewrite (case_LEFT_RIGHT_empty keyCodes props dom e G T).
      eexists; reflexivity.
    + destruct (case_LEFT_RIGHT_run keyCodes props dom e G)
        as (next & submenu & _ & _ & ->).
      { rewrite T. unfold Immutable.size. simpl List.length. lia. }
      destruct (Menubar.getRectByLabel dom (Some next)); eexists; reflexivity.
  - rewrite (case_UP_DOWN_run keyCodes props dom e G).
    destruct (truthy_string (selectedLabel props));
      [|eexists; reflexivity].
    destruct (Menubar.selectedTemplate props); [|eexists; reflexivity].
    destruct (contextMenuDetail props); [eexists; reflexivity|].
    destruct (Menubar.selectedRect dom props) as [[rect|]|ex];
      eexists; reflexivity.
Qed.

(** ** ENTER *)

(** C4. On Enter, when a selected template exists the handler dispatches
    the click of the label found at [selectedIndex] in the selected visible
    items, and then the reset of the menu state; an index within the items
    yields the label of the item at that position.  When no selected
    template exists, neither intent is dispatched. *)
Theorem onKeyDown_ENTER_clicks_selected_item :
  forall keyCodes (props : MenubarProps) (dom : Dom) (e : KeyEvent),
    which e = ENTER keyCodes ->
    (forall t, Menubar.selectedTemplate props = Some t ->
       exists items,
         Menubar.selectedTemplateItemsOnly props = Normal items /\
         Menubar.onKeyDown keyCodes props dom e =
           ([PreventDefault;
             ClickMenubarSubmenu
               (Menubar.getIn_item_label items (selectedIndex props));
             ResetMenuState], Normal tt) /\
         (0 <= selectedIndex props < Immutable.size items ->
          exists l v c,
            nth_error items (Z.to_nat (selectedIndex props)) = Some (Item l v c) /\
            Menubar.getIn_item_label items (selectedIndex props) = Some l)) /\
    (Menubar.selectedTemplate props = None ->
     Menubar.onKeyDown keyCodes props dom e = ([PreventDefault], Normal tt)).
Proof.
  intros keyCodes props dom e K.
  rewrite (switch_ENTER keyCodes props dom e K), case_ENTER_run.
  split.
  - intros t T. rewrite T. exists (filter Menubar.itemsOnly t).
    split; [exact (selectedTemplateItemsOnly_some props t T)|].
    split; [reflexivity|].
    intros R. unfold Menubar.getIn_item_label.
    rewrite get_in_range by assumption.
    destruct (nth_error _ _) as [x|] eqn:N.
    + pose proof (nth_error_In _ _ N) as I. apply filter_In in I as [_ I].
      destruct x as [|l v c]; [discriminate|]. exists l, v, c. auto.
    + apply nth_error_None in N. unfold Immutable.size in R. lia.
  - intros ->. reflexivity.
Qed.

Lemma onKeyDown_ENTER_clicks_selected_item_witness :
  Menubar.onKeyDown domKeyCodes (exampleProps (Some "File") 1 (Some someDetail))
    exampleDom (key 13) =
  ([PreventDefault; ClickMenubarSubmenu (Some "Close Tab"); ResetMenuState],
   Normal tt).
Proof.
  destruct (proj1 (onKeyDown_ENTER_clicks_selected_item domKeyCodes
                     (exampleProps (Some "File") 1 (Some someDetail))
                     exampleDom (key 13) eq_refl)
                  [newTab; Separator; debugItem; closeTab] eq_refl)
    as (items & I & E & _).
  injection I as <-. exact E.
Defined.

Example onKeyDown_ENTER_nothing_selected :
  Menubar.onKeyDown domKeyCodes (exampleProps None 0 None) exampleDom (key 13) =
  ([PreventDefault], Normal tt).
Proof. reflexivity. Qed.

(** ** preventDefault *)

(** C8. The Enter case calls preventDefault first.  The Left/Right and
    Up/Down cases call preventDefault, first, if and only if autohide is
    enabled or a label is selected; otherwise they leave the event alone and
    dispatch nothing.  Any other key leaves the event alone and dispatches
    nothing. *)
Theorem onKeyDown_preventDefault :
  forall keyCodes (props : MenubarProps) (dom : Dom) (e : KeyEvent),
    (which e = ENTER keyCodes ->
     exists rest,
       trace (Menubar.onKeyDown keyCodes props dom e) = PreventDefault :: rest) /\
    (which e = LEFT keyCodes \/ which e = RIGHT keyCodes \/
     which e = UP keyCodes \/ which e = DOWN keyCodes ->
     (In PreventDefault (trace (Menubar.onKeyDown keyCodes props dom e)) <->
      autohide props = true \/ truthy_string (selectedLabel props) = true) /\
     (autohide props = true \/ truthy_string (selectedLabel props) = true ->
      exists rest,
        trace (Menubar.onKeyDown keyCodes props dom e) = PreventDefault :: rest) /\
     (autohide props = false /\ truthy_string (selectedLabel props) = false ->
      Menubar.onKeyDown keyCodes props dom e = ([], Normal tt))) /\
    (which e <> ENTER keyCodes /\ which e <> LEFT keyCodes /\
     which e <> RIGHT keyCodes /\ which e <> UP keyCodes /\
     which e <> DOWN keyCodes ->
     Menubar.onKeyDown keyCodes props dom e = ([], Normal tt)).
Proof.
  intros keyCodes props dom e. split; [|split].
  - intros K. rewrite (switch_ENTER keyCodes props dom e K), case_ENTER_run.
    destruct (Menubar.selectedTemplate props); eexists; reflexivity.
  - intros K.
    assert (autohide props = true \/ truthy_string (selectedLabel props) = true ->
            exists rest,
              trace (Menubar.onKeyDown keyCodes props dom e) =
              PreventDefault :: rest) as Hyes.
    { intros G.
      destruct (case_arrows_head keyCodes props dom e G) as [LR UD].
      destruct K as [K|[K|K]].
      - rewrite (switch_LEFT_RIGHT keyCodes props dom e (or_introl K)). exact LR.
      - rewrite (switch_LEFT_RIGHT keyCodes props dom e (or_intror K)). exact LR.
      - rewrite (switch_UP_DOWN keyCodes props dom e K). exact UD. }
    assert (autohide props = false /\ truthy_string (selectedLabel props) = false ->
            Menubar.onKeyDown keyCodes props dom e = ([], Normal tt)) as Hno.
    { intros [A S].
      destruct (case_arrows_blocked keyCodes props dom e A S) as [LR UD].
      destruct K as [K|[K|K]].
      - rewrite (switch_LEFT_RIGHT keyCodes props dom e (or_introl K)). exact LR.
      - rewrite (switch_LEFT_RIGHT keyCodes props dom e (or_intror K)). exact LR.
      - rewrite (switch_UP_DOWN keyCodes props dom e K). exact UD. }
    split; [|split]; auto.
    split.
    + intros I.
      destruct (autohide props) eqn:A; [now left|].
      destruct (truthy_string (selectedLabel props)) eqn:S; [now right|].
      rewrite (Hno (conj eq_refl eq_refl)) in I. destruct I.
    + intros G. destruct (Hyes G) as (rest & ->). now left.
  - intros (N1 & N2 & N3 & N4 & N5).
    exact (switch_default keyCodes props dom e N1 N2 N3 N4 N5).
Qed.

Example onKeyDown_other_key :
  Menubar.onKeyDown domKeyCodes (exampleProps (Some "File") 0 None) exampleDom
    (key 27) = ([], Normal tt).
Proof. reflexivity. Qed.

Example onKeyDown_RIGHT_nothing_selected :
  Menubar.onKeyDown domKeyCodes (exampleProps None 0 None) exampleDom (key 39) =
  ([], Normal tt).
Proof. reflexivity. Qed.

(** ** LEFT and RIGHT *)

Lemma strict_eq_true (a : string) (b : option string) :
  strict_eq a b = true <-> b = Some a.
Proof.
  destruct b as [b|]; simpl; [|split; discriminate].
  destruct (String.eqb_spec a b); split; congruence.
Qed.

Lemma selectedLabelIndex_none (props : MenubarProps) :
  Menubar.selectedLabelIndex props = -1 <->
  forall element, In element (template props) ->
                  selectedLabel props <> Some (label element).
Proof.
  unfold Menubar.selectedLabelIndex. rewrite findIndex_none. split.
  - intros F element Hin E. pose proof (find_none _ _ F element Hin) as N.
    simpl in N. apply strict_eq_true in E. congruence.
  - intros H.
    destruct (find _ (template props)) as [element|] eqn:F; [|reflexivity].
    apply find_some in F as [Hin E]. apply strict_eq_true in E.
    exfalso. exact (H element Hin E).
Qed.

Lemma selectedLabelIndex_found (props : MenubarProps) :
  Menubar.selectedLabelIndex props <> -1 ->
  0 <= Menubar.selectedLabelIndex props < Immutable.size (template props) /\
  exists current,
    nth_error (template props) (Z.to_nat (Menubar.selectedLabelIndex props))
      = Some current /\
    selectedLabel props = Some (label current).
Proof.
  intros N. unfold Menubar.selectedLabelIndex in *. split.
  - destruct (findIndex_range
                (fun element => strict_eq (label element) (selectedLabel props))
                (template props)); [contradiction|assumption].
  - destruct (findIndex_found _ _ N) as (x & Hn & Hx & _).
    exists x. split; [exact Hn|]. now apply strict_eq_true.
Qed.

(** The Left/Right case, its guard passed and the template not empty.
    When no entry carries the selected label the next index is 0; otherwise
    it is the index of the selected label plus one (Right) or minus one
    (Left), clamped with wrap-around into [0, size - 1], so that Right from
    the last index gives 0 and Left from index 0 gives the last index.  The
    rectangle of the label at the next index is looked up first: when the
    lookup completes, the label is dispatched as the selected label, once;
    when it throws, the handler ends with that exception and nothing is
    dispatched. *)
Lemma onKeyDown_LEFT_RIGHT_next_label :
  forall keyCodes (props : MenubarProps) (dom : Dom) (e : KeyEvent),
    which e = LEFT keyCodes \/ which e = RIGHT keyCodes ->
    autohide props = true \/ truthy_string (selectedLabel props) = true ->
    0 < Immutable.size (template props) ->
    let last := Immutable.size (template props) - 1 in
    let current := Menubar.selectedLabelIndex props in
    let next := Menubar.nextIndex keyCodes props e in
    ((forall element, In element (template props) ->
                      selectedLabel props <> Some (label element)) ->
     next = 0) /\
    (forall element, In element (template props) ->
                     selectedLabel props = Some (label element) ->
     (exists selected,
        nth_error (template props) (Z.to_nat current) = Some selected /\
        selectedLabel props = Some (label selected)) /\
     0 <= current <= last /\
     (which e = RIGHT keyCodes ->
      next = wrappingClamp (current + 1) 0 last /\
      next = if current =? last then 0 else current + 1) /\
     (which e = LEFT keyCodes ->
      next = wrappingClamp (current - 1) 0 last /\
      next = if current =? 0 then last else current - 1)) /\
    0 <= next <= last /\
    exists element,
      nth_error (template props) (Z.to_nat next) = Some element /\
      match Menubar.getRectByLabel dom (Some (label element)) with
      | Throw ex =>
          Menubar.onKeyDown keyCodes props dom e = ([PreventDefault], Throw ex)
      | Normal _ =>
          exists rest,
            Menubar.onKeyDown keyCodes props dom e =
              (PreventDefault ::
               SetMenubarSelectedLabel (Some (label element)) :: rest,
               Normal tt) /\
            forall l, ~ In (SetMenubarSelectedLabel l) rest
      end.
Proof.
  intros keyCodes props dom e K G H last current next.
  pose proof (keyCodes_neq keyCodes) as D.
  split; [|split; [|split]].
  - intros U. apply selectedLabelIndex_none in U.
    subst next. unfold Menubar.nextIndex. rewrite U. reflexivity.
  - intros element Hin Hsel.
    assert (current <> -1) as N.
    { intros C.
      exact (proj1 (selectedLabelIndex_none props) C element Hin Hsel). }
    destruct (selectedLabelIndex_found props N) as [R S].
    split; [exact S|]. split; [subst last current; lia|].
    subst next. unfold Menubar.nextIndex. fold current.
    destruct (Z.eqb_spec current (-1)); [contradiction|].
    fold last. split.
    + intros Kr. rewrite Kr.
      destruct (Z.eqb_spec (RIGHT keyCodes) (LEFT keyCodes));
        [intuition congruence|].
      split; [reflexivity|]. unfold wrappingClamp.
      destruct (Z.eqb_spec current last), (Z.ltb_spec last (current + 1)),
        (Z.ltb_spec (current + 1) 0); subst last current; lia.
    + intros Kl. rewrite Kl, Z.eqb_refl.
      replace (current + -1) with (current - 1) by lia.
      split; [reflexivity|]. unfold wrappingClamp.
      destruct (Z.eqb_spec current 0), (Z.ltb_spec last (current - 1)),
        (Z.ltb_spec (current - 1) 0); subst last current; lia.
  - pose proof (nextIndex_range keyCodes props e H). subst last next. lia.
  - destruct (nextLabel_some keyCodes props e H) as (element & Hn & Hl).
    destruct (case_LEFT_RIGHT_run keyCodes props dom e G H)
      as (l & submenu & Hl' & _ & E).
    rewrite Hl in Hl'. injection Hl' as <-.
    exists element. split; [exact Hn|].
    rewrite (switch_LEFT_RIGHT keyCodes props dom e K), E.
    destruct (Menubar.getRectByLabel dom (Some (label element)))
      as [found|ex]; [|reflexivity].
    eexists. split; [reflexivity|]. intros l.
    destruct (contextMenuDetail props), (Menubar.selectedTemplate props),
      found; simpl; intuition discriminate.
Qed.

(** C3, at an input where the code leaves it.  File is selected and the
    next label is What's New.  On Right the next index is 1 and the label at
    that index is What's New, but the handler looks up its rectangle before
    it dispatches the label: the selector built around the label is not
    valid, the lookup throws, and the label is not dispatched. *)
Theorem onKeyDown_RIGHT_throws_before_dispatch :
  truthy_string (selectedLabel beforeWhatsNew) = true /\
  Menubar.nextIndex domKeyCodes beforeWhatsNew (key 39) = 1 /\
  Menubar.nextLabel domKeyCodes beforeWhatsNew (key 39) = Some whatsNew /\
  Menubar.menubarItemSelector (Some whatsNew) =
    ".menubar .menubarItem[data-label='What's New']" /\
  Menubar.getRectByLabel (documentWith beforeWhatsNew) (Some whatsNew) =
    Throw SyntaxError /\
  Menubar.onKeyDown domKeyCodes beforeWhatsNew (documentWith beforeWhatsNew)
    (key 39) = ([PreventDefault], Throw SyntaxError).
Proof. repeat split. Qed.

(** The mouse selects the same label without a lookup. *)
Example onClick_whatsNew :
  MenubarItem.onClick
    {| MenubarItem.label := whatsNew;
       MenubarItem.submenu := submenu whatsNewMenu;
       MenubarItem.menubar := beforeWhatsNew;
       MenubarItem.lastFocusedSelector := Some webview;
       MenubarItem.selected := false |}
    (Some (clickAt (exampleLayout 1))) =
  ([StopPropagation; SetMenubarSelectedLabel (Some whatsNew);
    SetContextMenuDetail (Some {|
      detail_left := 50; detail_top := 20;
      detail_template :=
        [Item "Release Notes" None (MenubarClick (Some webview) "Release Notes")]
    |})], Normal tt).
Proof. reflexivity. Qed.

Example onKeyDown_RIGHT_from_Edit :
  Menubar.onKeyDown domKeyCodes (exampleProps (Some "Edit") 0 None) exampleDom
    (key 39) =
  ([PreventDefault; SetMenubarSelectedLabel (Some "View")], Normal tt).
Proof. reflexivity. Qed.

Example onKeyDown_RIGHT_from_View_wraps :
  Menubar.onKeyDown domKeyCodes (exampleProps (Some "View") 0 None) exampleDom
    (key 39) =
  ([PreventDefault; SetMenubarSelectedLabel (Some "File")], Normal tt).
Proof. reflexivity. Qed.

Example onKeyDown_LEFT_from_File_wraps :
  Menubar.onKeyDown domKeyCodes (exampleProps (Some "File") 0 None) exampleDom
    (key 37) =
  ([PreventDefault; SetMenubarSelectedLabel (Some "View")], Normal tt).
Proof. reflexivity. Qed.

Example wrappingClamp_examples :
  wrappingClamp (4 + 1) 0 4 = 0 /\ wrappingClamp (0 - 1) 0 4 = 4 /\
  wrappingClamp (2 + 1) 0 4 = 3.
Proof. repeat split. Qed.

(** C1, as the code has it.  In the Left/Right case, after the next label
    has been dispatched as selected, the handler resets the submenu selected
    index to 0 and opens a context menu anchored at the rectangle of the
    next label, showing the submenu found for the next label, if and only if
    a context menu is already open, the label selected before the key press
    has a template (empty or not), and the rectangle of the next label is
    found.  Otherwise nothing follows the dispatch of the next label. *)
Theorem onKeyDown_LEFT_RIGHT_follows_open_menu :
  forall keyCodes (props : MenubarProps) (dom : Dom) (e : KeyEvent),
    which e = LEFT keyCodes \/ which e = RIGHT keyCodes ->
    autohide props = true \/ truthy_string (selectedLabel props) = true ->
    0 < Immutable.size (template props) ->
    exists next submenu,
      Menubar.nextLabel keyCodes props e = Some next /\
      Menubar.getTemplateByLabel props (Some next) = Some submenu /\
      (forall rect,
         contextMenuDetail props <> None /\
         Menubar.selectedTemplate props <> None /\
         Menubar.getRectByLabel dom (Some next) = Normal (Some rect) ->
         Menubar.onKeyDown keyCodes props dom e =
           ([PreventDefault; SetMenubarSelectedLabel (Some next);
             SetSubmenuSelectedIndex 0;
             SetContextMenuDetail (Some {|
               detail_left := rect_left rect;
               detail_top := rect_bottom rect;
               detail_template :=
                 map (wrap_click (lastFocusedSelector props)) submenu |})],
            Normal tt)) /\
      (forall found,
         Menubar.getRectByLabel dom (Some next) = Normal found ->
         ~ (contextMenuDetail props <> None /\
            Menubar.selectedTemplate props <> None /\
            found <> None) ->
         Menubar.onKeyDown keyCodes props dom e =
           ([PreventDefault; SetMenubarSelectedLabel (Some next)], Normal tt)) /\
      (auto_opens (trace (Menubar.onKeyDown keyCodes props dom e)) <->
       contextMenuDetail props <> None /\
       Menubar.selectedTemplate props <> None /\
       exists rect,
         Menubar.getRectByLabel dom (Some next) = Normal (Some rect)).
Proof.
  intros keyCodes props dom e K G H.
  destruct (case_LEFT_RIGHT_run keyCodes props dom e G H)
    as (next & submenu & Hl & Hs & E).
  exists next, submenu. split; [exact Hl|]. split; [exact Hs|].
  rewrite (switch_LEFT_RIGHT keyCodes props dom e K), E.
  destruct (Menubar.getRectByLabel dom (Some next)) as [found|ex].
  2: { split; [|split].
       - intros rect (_ & _ & C). discriminate.
       - intros found C. discriminate.
       - split.
         + intros [I _]. simpl in I. intuition discriminate.
         + intros (_ & _ & rect & C). discriminate. }
  destruct (contextMenuDetail props) as [d|];
    [destruct (Menubar.selectedTemplate props) as [t|];
     [destruct found as [rect|]|]|].
  1: { split; [|split].
       - intros rect' (_ & _ & [= <-]). reflexivity.
       - intros found [= <-] N. exfalso. apply N. repeat split; discriminate.
       - split.
         + intros _. repeat split; try discriminate. exists rect. reflexivity.
         + intros _. split; simpl; [tauto|]. eexists. simpl. eauto. }
  all: split; [|split];
    [ intros rect (A & B & C); congruence
    | intros found' _ _; reflexivity
    | split;
      [ intros [I _]; simpl in I; intuition discriminate
      | intros (A & B & rect & C); congruence ] ].
Qed.

Lemma onKeyDown_LEFT_RIGHT_follows_open_menu_witness :
  Menubar.onKeyDown domKeyCodes beforeEmptyMenu (documentWith beforeEmptyMenu)
    (key 39) =
  ([PreventDefault; SetMenubarSelectedLabel (Some "Help");
    SetSubmenuSelectedIndex 0;
    SetContextMenuDetail (Some {|
      detail_left := 50; detail_top := 20; detail_template := [] |})],
   Normal tt).
Proof.
  destruct (onKeyDown_LEFT_RIGHT_follows_open_menu domKeyCodes beforeEmptyMenu
              (documentWith beforeEmptyMenu) (key 39)
              (or_intror eq_refl) (or_intror eq_refl) eq_refl)
    as (next & submenu & Hl & Hs & Hopen & _).
  vm_compute in Hl. injection Hl as <-.
  vm_compute in Hs. injection Hs as <-.
  apply (Hopen (exampleLayout 1)).
  repeat split; vm_compute; try discriminate; reflexivity.
Defined.

(** Two inputs at which the context menu does not follow the rule of the
    non-empty next submenu: it opens on an empty submenu, and it stays
    closed, nothing being selected, although the next label has entries and
    a rectangle. *)
Lemma onKeyDown_LEFT_RIGHT_ignores_next_submenu :
  ~ opens_iff_next_submenu_nonempty domKeyCodes beforeEmptyMenu
      (documentWith beforeEmptyMenu) (key 39) /\
  ~ opens_iff_next_submenu_nonempty domKeyCodes pageMenuOpen
      (documentWith pageMenuOpen) (key 39).
Proof.
  split.
  - intros [H _].
    destruct H as (_ & (submenu & Hs & Hne) & _).
    + split; simpl; [tauto|]. eexists. simpl. eauto.
    + vm_compute in Hs. injection Hs as <-. exact (Hne eq_refl).
  - intros [_ H].
    destruct H as [I _].
    + split; [vm_compute; discriminate|].
      split; [|eexists; vm_compute; reflexivity].
      eexists. split; [vm_compute; reflexivity|discriminate].
    + vm_compute in I. intuition discriminate.
Qed.

Example onKeyDown_RIGHT_page_menu_open :
  Menubar.onKeyDown domKeyCodes pageMenuOpen (documentWith pageMenuOpen)
    (key 39) =
  ([PreventDefault; SetMenubarSelectedLabel (Some "File")], Normal tt).
Proof. reflexivity. Qed.

Example onKeyDown_RIGHT_menu_open :
  Menubar.onKeyDown domKeyCodes (exampleProps (Some "File") 0 (Some someDetail))
    exampleDom (key 39) =
  ([PreventDefault; SetMenubarSelectedLabel (Some "Edit");
    SetSubmenuSelectedIndex 0;
    SetContextMenuDetail (Some {|
      detail_left := 50; detail_top := 20;
      detail_template := [Item "Undo" None (MenubarClick (Some webview) "Undo")]
    |})], Normal tt).
Proof. reflexivity. Qed.

(** ** UP and DOWN *)

Lemma onKeyDown_UP_DOWN_run keyCodes (props : MenubarProps) dom e t :
  which e = UP keyCodes \/ which e = DOWN keyCodes ->
  truthy_string (selectedLabel props) = true ->
  Menubar.selectedTemplate props = Some t ->
  (forall rect,
     contextMenuDetail props = None ->
     Menubar.selectedRect dom props = Normal (Some rect) ->
     Menubar.onKeyDown keyCodes props dom e =
       ([PreventDefault; SetSubmenuSelectedIndex 0;
         SetContextMenuDetail (Some {|
           detail_left := rect_left rect;
           detail_top := rect_bottom rect;
           detail_template := map (wrap_click (lastFocusedSelector props)) t |})],
        Normal tt)) /\
  (contextMenuDetail props <> None \/
   Menubar.selectedRect dom props = Normal None ->
   Menubar.onKeyDown keyCodes props dom e =
     ([PreventDefault;
       SetSubmenuSelectedIndex
         (wrappingClamp
            (selectedIndex props + (if which e =? UP keyCodes then -1 else 1))
            0
            (Immutable.size (filter Menubar.itemsOnly t) - 1))],
      Normal tt)) /\
  (forall ex,
     contextMenuDetail props = None ->
     Menubar.selectedRect dom props = Throw ex ->
     Menubar.onKeyDown keyCodes props dom e = ([PreventDefault], Throw ex)).
Proof.
  intros K S T.
  rewrite (switch_UP_DOWN keyCodes props dom e K).
  rewrite (case_UP_DOWN_run keyCodes props dom e (or_intror S)), S, T.
  cbv zeta. split; [|split].
  - intros rect -> ->. reflexivity.
  - intros [N | R].
    + destruct (contextMenuDetail props); [reflexivity|contradiction].
    + rewrite R. destruct (contextMenuDetail props); reflexivity.
  - intros ex -> ->. reflexivity.
Qed.

(** C2, at an input where the code leaves it.  The label File is in the
    template twice, so that two spans match its selector and its rectangle
    is not found; File is selected and no context menu is open.  On Down the
    handler moves the submenu selection from 0 to 1. *)
Theorem onKeyDown_DOWN_moves_selection_without_menu :
  truthy_string (selectedLabel twoFileMenus) = true /\
  Menubar.selectedTemplate twoFileMenus = Some (submenu fileMenu) /\
  contextMenuDetail twoFileMenus = None /\
  Menubar.selectedRect (documentWith twoFileMenus) twoFileMenus = Normal None /\
  Menubar.onKeyDown domKeyCodes twoFileMenus (documentWith twoFileMenus)
    (key 40) =
  ([PreventDefault; SetSubmenuSelectedIndex 1], Normal tt).
Proof. repeat split. Qed.

Example onKeyDown_UP_opens_menu :
  Menubar.onKeyDown domKeyCodes (exampleProps (Some "Edit") 0 None) exampleDom
    (key 38) =
  ([PreventDefault; SetSubmenuSelectedIndex 0;
    SetContextMenuDetail (Some {|
      detail_left := 50; detail_top := 20;
      detail_template := [Item "Undo" None (MenubarClick (Some webview) "Undo")]
    |})], Normal tt).
Proof. reflexivity. Qed.

Example onKeyDown_DOWN_menu_open :
  Menubar.onKeyDown domKeyCodes (exampleProps (Some "File") 1 (Some someDetail))
    exampleDom (key 40) =
  ([PreventDefault; SetSubmenuSelectedIndex 0], Normal tt).
Proof. reflexivity. Qed.

Example onKeyDown_UP_menu_open :
  Menubar.onKeyDown domKeyCodes (exampleProps (Some "File") 0 (Some someDetail))
    exampleDom (key 38) =
  ([PreventDefault; SetSubmenuSelectedIndex 1], Normal tt).
Proof. reflexivity. Qed.

(** ** The getters that need a selected template *)

Lemma selectedTemplate_none (props : MenubarProps) :
  Menubar.selectedTemplate props = None <->
  forall element, In element (template props) ->
                  selectedLabel props <> Some (label element).
Proof.
  unfold Menubar.selectedTemplate. rewrite getTemplateByLabel_none. split.
  - intros H element Hin E. apply strict_eq_true in E.
    rewrite (H element Hin) in E. discriminate.
  - intros H element Hin.
    destruct (strict_eq (label element) (selectedLabel props)) eqn:E;
      [|reflexivity].
    apply strict_eq_true in E. exfalso. exact (H element Hin E).
Qed.

Lemma getRectByLabel_throw (dom : Dom) (l : option string) ex :
  Menubar.getRectByLabel dom l = Throw ex ->
  ex = SyntaxError /\
  querySelectorAll dom (Menubar.menubarItemSelector l) = Invalid.
Proof.
  unfold Menubar.getRectByLabel.
  destruct (querySelectorAll dom (Menubar.menubarItemSelector l));
    [discriminate|].
  intros [= <-]. split; reflexivity.
Qed.

Lemma onKeyDown_result keyCodes (props : MenubarProps) dom e :
  result (Menubar.onKeyDown keyCodes props dom e) = Normal tt \/
  (result (Menubar.onKeyDown keyCodes props dom e) = Throw SyntaxError /\
   exists l, querySelectorAll dom (Menubar.menubarItemSelector l) = Invalid).
Proof.
  unfold Menubar.onKeyDown.
  destruct (which e =? ENTER keyCodes).
  { left. rewrite case_ENTER_run.
    destruct (Menubar.selectedTemplate props); reflexivity. }
  assert (autohide props = true \/ truthy_string (selectedLabel props) = true \/
          (autohide props = false /\ truthy_string (selectedLabel props) = false))
    as [G|[G|[A S]]]
    by (destruct (autohide props), (truthy_string (selectedLabel props)); auto).
  3: { destruct (case_arrows_blocked keyCodes props dom e A S) as [-> ->].
       left. destruct (_ || _); [reflexivity|]. destruct (_ || _); reflexivity. }
  all: assert (autohide props = true \/
               truthy_string (selectedLabel props) = true) as G' by tauto;
    clear G; destruct (_ || _).
  1, 3: destruct (template props) as [|m t] eqn:T;
    [ rewrite (case_LEFT_RIGHT_empty keyCodes props dom e G' T); left; reflexivity
    | destruct (case_LEFT_RIGHT_run keyCodes props dom e G')
        as (next & submenu & _ & _ & ->);
      [ rewrite T; unfold Immutable.size; simpl List.length; lia | ];
      destruct (Menubar.getRectByLabel dom (Some next)) as [found|ex] eqn:R;
      [ left; reflexivity
      | right; destruct (getRectByLabel_throw _ _ _ R) as [-> I];
        split; [reflexivity|eauto] ] ].
  all: destruct (_ || _); [|left; reflexivity];
    rewrite (case_UP_DOWN_run keyCodes props dom e G');
    destruct (truthy_string (selectedLabel props)); [|left; reflexivity];
    destruct (Menubar.selectedTemplate props) as [t|]; [|left; reflexivity];
    cbv zeta;
    destruct (contextMenuDetail props); [left; reflexivity|];
    unfold Menubar.selectedRect;
    destruct (Menubar.getRectByLabel dom (selectedLabel props))
      as [[rect|]|ex] eqn:R;
    [ left; reflexivity | left; reflexivity
    | right; destruct (getRectByLabel_throw _ _ _ R) as [-> I];
      split; [reflexivity|eauto] ].
Qed.

(** C9. The selected template is null exactly when no entry of the template
    carries the selected label; exactly then [selectedTemplateItemsOnly]
    and [selectedIndexMax] throw the TypeError of filtering null, so that
    [selectedIndexMax] does not return 0.  No key event makes [onKeyDown]
    throw that TypeError: it guards each use of these getters by the
    selected template.  The handler completes normally on every input,
    unless the document rejects the selector of a rectangle lookup. *)
Theorem selected_getters_guarded_in_onKeyDown :
  forall (props : MenubarProps),
    (Menubar.selectedTemplate props = None <->
     forall element, In element (template props) ->
                     selectedLabel props <> Some (label element)) /\
    (Menubar.selectedTemplateItemsOnly props = Throw TypeError <->
     Menubar.selectedTemplate props = None) /\
    (Menubar.selectedIndexMax props = Throw TypeError <->
     Menubar.selectedTemplate props = None) /\
    (Menubar.selectedTemplate props = None ->
     Menubar.selectedIndexMax props <> Normal 0) /\
    (forall t, Menubar.selectedTemplate props = Some t ->
       Menubar.selectedTemplateItemsOnly props =
         Normal (filter Menubar.itemsOnly t) /\
       Menubar.selectedIndexMax props =
         Normal (Immutable.size (filter Menubar.itemsOnly t))) /\
    (forall keyCodes dom e,
       result (Menubar.onKeyDown keyCodes props dom e) <> Throw TypeError) /\
    (forall keyCodes dom e,
       result (Menubar.onKeyDown keyCodes props dom e) = Normal tt \/
       (result (Menubar.onKeyDown keyCodes props dom e) = Throw SyntaxError /\
        exists l,
          querySelectorAll dom (Menubar.menubarItemSelector l) = Invalid)).
Proof.
  intros props.
  split; [exact (selectedTemplate_none props)|].
  assert (Menubar.selectedTemplate props = None ->
          Menubar.selectedTemplateItemsOnly props = Throw TypeError /\
          Menubar.selectedIndexMax props = Throw TypeError) as Hnone.
  { intros N. unfold Menubar.selectedIndexMax, Menubar.selectedTemplateItemsOnly.
    rewrite N. split; reflexivity. }
  assert (forall t, Menubar.selectedTemplate props = Some t ->
          Menubar.selectedTemplateItemsOnly props =
            Normal (filter Menubar.itemsOnly t) /\
          Menubar.selectedIndexMax props =
            Normal (Immutable.size (filter Menubar.itemsOnly t))) as Hsome.
  { intros t T. split;
      [exact (selectedTemplateItemsOnly_some props t T)
      |exact (selectedIndexMax_some props t T)]. }
  split; [|split; [|split; [|split; [|split]]]].
  - split; [|apply Hnone].
    destruct (Menubar.selectedTemplate props) as [t|] eqn:T; [|reflexivity].
    destruct (Hsome t eq_refl) as [-> _]. discriminate.
  - split; [|apply Hnone].
    destruct (Menubar.selectedTemplate props) as [t|] eqn:T; [|reflexivity].
    destruct (Hsome t eq_refl) as [_ ->]. discriminate.
  - intros N. destruct (Hnone N) as [_ ->]. discriminate.
  - exact Hsome.
  - intros keyCodes dom e.
    destruct (onKeyDown_result keyCodes props dom e) as [-> | [-> _]];
      discriminate.
  - intros keyCodes dom e. apply onKeyDown_result.
Qed.

Example onKeyDown_DOWN_unknown_label :
  Menubar.selectedIndexMax (exampleProps (Some "Help") 0 (Some someDetail)) =
    Throw TypeError /\
  Menubar.onKeyDown domKeyCodes (exampleProps (Some "Help") 0 (Some someDetail))
    exampleDom (key 40) = ([PreventDefault], Normal tt).
Proof. split; reflexivity. Qed.

(** ** Hover and the re-render gate *)

Lemma onMouseOver_switches_open_menu (props : MenubarItem.Props)
    (e : option MouseEvent) :
  MenubarItem.onMouseOver props e =
  if truthy_string (selectedLabel (MenubarItem.menubar props))
     && negb (strict_eq (MenubarItem.label props)
                (selectedLabel (MenubarItem.menubar props)))
  then MenubarItem.onClick props e
  else ([], Normal tt).
Proof. reflexivity. Qed.

Example onMouseOver_nothing_selected :
  MenubarItem.onMouseOver (itemProps editMenu None)
    (Some (clickAt (exampleLayout 1))) = ([], Normal tt).
Proof. reflexivity. Qed.

Lemma shouldComponentUpdate_selectedLabel (props nextProps : MenubarProps) :
  Menubar.shouldComponentUpdate props nextProps = false <->
  selectedLabel props = selectedLabel nextProps.
Proof.
  unfold Menubar.shouldComponentUpdate.
  destruct (selectedLabel props) as [a|], (selectedLabel nextProps) as [b|];
    simpl; try (split; [discriminate|congruence]); try tauto.
  destruct (String.eqb_spec a b); simpl; split; congruence.
Qed.

Lemma rendered_labels (props : MenubarProps) :
  map data_label (Menubar.rendered props) = map label (template props).
Proof.
  unfold Menubar.rendered, Menubar.render. rewrite !map_map. reflexivity.
Qed.

(** * Further properties *)

(** ** MenubarItem: hover and a click without an event *)

(** X1. Hovering an item while another label is selected does what a click
    on the item does: it selects the item and opens its context menu.
    Hovering while nothing is selected, or over the selected item itself,
    does nothing.  A hover never clears the selection or the context
    menu. *)
Theorem onMouseOver_switches_never_clears :
  forall (props : MenubarItem.Props) (ev : MouseEvent),
    (truthy_string (selectedLabel (MenubarItem.menubar props)) = true /\
     selectedLabel (MenubarItem.menubar props) <> Some (MenubarItem.label props) ->
     MenubarItem.onMouseOver props (Some ev) =
       (stopped ev ++
        SetMenubarSelectedLabel (Some (MenubarItem.label props)) ::
        trace (showContextMenu (target_getBoundingClientRect ev)
                 (MenubarItem.submenu props)
                 (MenubarItem.lastFocusedSelector props)),
        Normal tt)) /\
    (truthy_string (selectedLabel (MenubarItem.menubar props)) = false \/
     selectedLabel (MenubarItem.menubar props) = Some (MenubarItem.label props) ->
     MenubarItem.onMouseOver props (Some ev) = ([], Normal tt)) /\
    ~ In (SetMenubarSelectedLabel None)
         (trace (MenubarItem.onMouseOver props (Some ev))) /\
    ~ In (SetContextMenuDetail None)
         (trace (MenubarItem.onMouseOver props (Some ev))).
Proof.
  intros props ev.
  assert (truthy_string (selectedLabel (MenubarItem.menubar props)) = true /\
          selectedLabel (MenubarItem.menubar props) <> Some (MenubarItem.label props) ->
          MenubarItem.onMouseOver props (Some ev) =
            (stopped ev ++
             SetMenubarSelectedLabel (Some (MenubarItem.label props)) ::
             trace (showContextMenu (target_getBoundingClientRect ev)
                      (MenubarItem.submenu props)
                      (MenubarItem.lastFocusedSelector props)),
             Normal tt)) as Hyes.
  { intros [T N]. unfold MenubarItem.onMouseOver. rewrite T.
    destruct (strict_eq _ _) eqn:E; [apply strict_eq_true in E; contradiction|].
    simpl. rewrite (onClick_select props ev (or_intror N)). reflexivity. }
  assert (truthy_string (selectedLabel (MenubarItem.menubar props)) = false \/
          selectedLabel (MenubarItem.menubar props) = Some (MenubarItem.label props) ->
          MenubarItem.onMouseOver props (Some ev) = ([], Normal tt)) as Hno.
  { intros H. unfold MenubarItem.onMouseOver.
    destruct H as [-> | E]; [reflexivity|].
    apply strict_eq_true in E. rewrite E, andb_false_r. reflexivity. }
  split; [exact Hyes|]. split; [exact Hno|].
  destruct (truthy_string (selectedLabel (MenubarItem.menubar props))) eqn:T.
  - destruct (strict_eq (MenubarItem.label props)
                (selectedLabel (MenubarItem.menubar props))) eqn:E.
    + apply strict_eq_true in E. rewrite (Hno (or_intror E)). simpl. tauto.
    + assert (selectedLabel (MenubarItem.menubar props)
              <> Some (MenubarItem.label props)) as N.
      { intros C. apply strict_eq_true in C. congruence. }
      rewrite (Hyes (conj eq_refl N)).
      unfold stopped; destruct (stopPropagation ev); simpl;
        split; intros K; intuition discriminate.
  - rewrite (Hno (or_introl eq_refl)). simpl. tauto.
Qed.

(** X2. A click handled with an event completes normally.  Called without
    an event, [onClick] still deselects the selected item; on any other
    item it dispatches the item's label as selected and then throws,
    reading the target of the missing event, so that no context menu is
    opened. *)
Theorem onClick_without_event :
  forall (props : MenubarItem.Props),
    (selectedLabel (MenubarItem.menubar props) = Some (MenubarItem.label props) /\
     MenubarItem.label props <> "" ->
     MenubarItem.onClick props None =
       ([SetContextMenuDetail None; SetMenubarSelectedLabel None], Normal tt)) /\
    (selectedLabel (MenubarItem.menubar props) <> Some (MenubarItem.label props) \/
     MenubarItem.label props = "" ->
     MenubarItem.onClick props None =
       ([SetMenubarSelectedLabel (Some (MenubarItem.label props))],
        Throw TypeError)) /\
    (forall ev, result (MenubarItem.onClick props (Some ev)) = Normal tt).
Proof.
  intros props.
  destruct (truthy_string (selectedLabel (MenubarItem.menubar props))
            && strict_eq (MenubarItem.label props)
                 (selectedLabel (MenubarItem.menubar props))) eqn:C.
  - apply andb_true_iff in C as [T E]. apply strict_eq_true in E.
    assert (MenubarItem.label props <> "") as N.
    { intros Z. rewrite E, Z in T. discriminate. }
    split; [|split].
    + intros _. unfold MenubarItem.onClick. rewrite T, E. simpl.
      rewrite String.eqb_refl. reflexivity.
    + intros [D|D]; contradiction.
    + intros ev. rewrite (onClick_deselect props ev T E). reflexivity.
  - assert (truthy_string (selectedLabel (MenubarItem.menubar props)) = false \/
            selectedLabel (MenubarItem.menubar props)
            <> Some (MenubarItem.label props)) as D.
    { apply andb_false_iff in C as [T|E]; [now left|right].
      intros K. apply strict_eq_true in K. congruence. }
    split; [|split].
    + intros [E N]. exfalso. destruct D as [T|D]; [|contradiction].
      rewrite E in T. simpl in T.
      destruct (String.eqb_spec (MenubarItem.label props) ""); [contradiction|].
      discriminate.
    + intros _. unfold MenubarItem.onClick. rewrite C. reflexivity.
    + intros ev. rewrite (onClick_select props ev D). reflexivity.
Qed.

(** ** Menubar: lookups *)

Lemma find_first {A} (f : A -> bool) (l : list A) (x : A) :
  find f l = Some x <->
  exists i,
    nth_error l i = Some x /\ f x = true /\
    forall j y, (j < i)%nat -> nth_error l j = Some y -> f y = false.
Proof.
  induction l as [|a l IH]; simpl.
  - split; [discriminate|]. intros (i & H & _). destruct i; discriminate.
  - destruct (f a) eqn:Fa.
    + split.
      * intros [= <-]. exists 0%nat. simpl. repeat split; auto. intros; lia.
      * intros (i & Hn & Fx & Hmin). destruct i as [|i]; [simpl in Hn; congruence|].
        specialize (Hmin 0%nat a). simpl in Hmin.
        rewrite Hmin in Fa by (auto; lia). discriminate.
    + rewrite IH. split.
      * intros (i & Hn & Fx & Hmin). exists (S i). simpl. repeat split; auto.
        intros [|j] y Hj Hy; simpl in Hy; [congruence|].
        apply (Hmin j); auto; lia.
      * intros (i & Hn & Fx & Hmin). destruct i as [|i];
          [simpl in Hn; congruence|].
        exists i. simpl in Hn. repeat split; auto.
        intros j y Hj Hy. apply (Hmin (S j)); auto; lia.
Qed.

(** X3. [getTemplateByLabel] answers with the submenu of the first entry
    of the template that carries the label: entries further down with the
    same label are never looked at.  An undefined label finds nothing. *)
Theorem getTemplateByLabel_first_match :
  forall (props : MenubarProps),
    (forall l s,
       Menubar.getTemplateByLabel props (Some l) = Some s <->
       exists i entry,
         nth_error (template props) i = Some entry /\
         label entry = l /\ submenu entry = s /\
         forall j other, (j < i)%nat ->
                         nth_error (template props) j = Some other ->
                         label other <> l) /\
    Menubar.getTemplateByLabel props None = None.
Proof.
  intros props. split.
  - intros l s. unfold Menubar.getTemplateByLabel. split.
    + destruct (find _ (template props)) as [entry|] eqn:F; [|discriminate].
      intros [= <-]. apply find_first in F as (i & Hn & Hf & Hmin).
      exists i, entry. apply strict_eq_true in Hf.
      repeat split; auto; [congruence|].
      intros j other Hj Ho E. specialize (Hmin j other Hj Ho).
      simpl in Hmin. rewrite E, String.eqb_refl in Hmin. discriminate.
    + intros (i & entry & Hn & <- & <- & Hmin).
      assert (find (fun element => strict_eq (label element) (Some (label entry)))
                (template props) = Some entry) as ->; [|reflexivity].
      apply find_first. exists i. repeat split; auto.
      * simpl. apply String.eqb_refl.
      * intros j y Hj Hy. simpl.
        destruct (String.eqb_spec (label y) (label entry)); [|reflexivity].
        exfalso. exact (Hmin j y Hj Hy e).
  - unfold Menubar.getTemplateByLabel.
    destruct (find _ (template props)) as [entry|] eqn:F; [|reflexivity].
    apply find_some in F as [_ F]. discriminate.
Qed.

Example getTemplateByLabel_duplicate :
  Menubar.getTemplateByLabel
    (menubarProps [fileMenu; {| label := "File"; submenu := [undo] |}]
       None 0 false None) (Some "File") = Some (submenu fileMenu).
Proof. reflexivity. Qed.

Lemma filter_size_le {A} (f : A -> bool) (l : list A) :
  Immutable.size (filter f l) <= Immutable.size l.
Proof.
  unfold Immutable.size. pose proof (filter_length_le f l). lia.
Qed.

Lemma filter_nil_iff {A} (f : A -> bool) (l : list A) :
  filter f l = [] <-> forall x, In x l -> f x = false.
Proof.
  induction l as [|a l IH]; simpl; [tauto|].
  destruct (f a) eqn:Fa; split.
  - discriminate.
  - intros H. rewrite (H a (or_introl eq_refl)) in Fa. discriminate.
  - intros H x [<-|Hin]; [assumption|]. now apply IH.
  - intros H. apply IH. intros x Hin. apply H. now right.
Qed.

(** X4. With a selected template, [selectedIndexMax] is the number of its
    entries that are neither separators nor hidden: it lies between 0 and
    the size of the template, and it is 0 exactly when every entry is a
    separator or has [visible] false. *)
Theorem selectedIndexMax_counts_visible :
  forall (props : MenubarProps) (t : list SubmenuEntry),
    Menubar.selectedTemplate props = Some t ->
    exists n,
      Menubar.selectedIndexMax props = Normal n /\
      0 <= n <= Immutable.size t /\
      (forall items, Menubar.selectedTemplateItemsOnly props = Normal items ->
                     n = Immutable.size items) /\
      (n = 0 <->
       forall x, In x t -> x = Separator \/ exists l c, x = Item l (Some false) c).
Proof.
  intros props t T. exists (Immutable.size (filter Menubar.itemsOnly t)).
  split; [exact (selectedIndexMax_some props t T)|].
  split; [split; [apply size_nonneg|apply filter_size_le]|].
  split.
  - intros items I. rewrite (selectedTemplateItemsOnly_some props t T) in I.
    injection I as <-. reflexivity.
  - assert (Immutable.size (filter Menubar.itemsOnly t) = 0 <->
            filter Menubar.itemsOnly t = []) as ->.
    { unfold Immutable.size. destruct (filter Menubar.itemsOnly t); simpl;
        split; try reflexivity; try discriminate; lia. }
    rewrite filter_nil_iff. split.
    + intros H x Hin. specialize (H x Hin).
      destruct x as [|l [[|]|] c]; simpl in H; try discriminate; eauto.
    + intros H x Hin. destruct (H x Hin) as [->|(l & c & ->)]; reflexivity.
Qed.

Lemma selectedIndexMax_counts_visible_witness :
  exists n,
    Menubar.selectedIndexMax (exampleProps (Some "File") 0 None) = Normal n /\
    0 <= n <= 4.
Proof.
  destruct (selectedIndexMax_counts_visible (exampleProps (Some "File") 0 None)
              [newTab; Separator; debugItem; closeTab] eq_refl)
    as (n & E & R & _).
  exists n. split; [exact E|exact R].
Defined.

(** ** Menubar: rendering *)

(** X5. [render] makes one item per entry of the template, in order, with
    the label and the submenu of the entry, the menubar itself and its
    [lastFocusedSelector]; an item is marked selected exactly when its label
    is the selected label, and only then its class is "menubarItem
    selected".  When the labels of the template are distinct, at most one
    item is marked. *)
Theorem render_items :
  forall (props : MenubarProps),
    List.length (Menubar.render props) = List.length (template props) /\
    (forall i entry,
       nth_error (template props) i = Some entry ->
       exists item,
         nth_error (Menubar.render props) i = Some item /\
         MenubarItem.label item = label entry /\
         MenubarItem.submenu item = submenu entry /\
         MenubarItem.menubar item = props /\
         MenubarItem.lastFocusedSelector item = lastFocusedSelector props /\
         (MenubarItem.selected item = true <->
          selectedLabel props = Some (label entry)) /\
         data_label (MenubarItem.render item) = label entry /\
         className (MenubarItem.render item) =
           (if MenubarItem.selected item then "menubarItem selected"
            else "menubarItem")) /\
    (NoDup (map label (template props)) ->
     forall i j a b,
       nth_error (Menubar.render props) i = Some a ->
       nth_error (Menubar.render props) j = Some b ->
       MenubarItem.selected a = true -> MenubarItem.selected b = true ->
       i = j).
Proof.
  intros props. split; [apply length_map|]. split.
  - intros i entry Hn. unfold Menubar.render. rewrite nth_error_map, Hn. simpl.
    eexists. split; [reflexivity|]. simpl.
    repeat split; try apply strict_eq_true.
    destruct (strict_eq (label entry) (selectedLabel props)); reflexivity.
  - intros ND i j a b Ha Hb Sa Sb. unfold Menubar.render in Ha, Hb.
    rewrite nth_error_map in Ha, Hb.
    destruct (nth_error (template props) i) as [x|] eqn:Hi; [|discriminate].
    destruct (nth_error (template props) j) as [y|] eqn:Hj; [|discriminate].
    injection Ha as <-. injection Hb as <-. simpl in Sa, Sb.
    apply strict_eq_true in Sa, Sb.
    assert (label x = label y) as E by congruence.
    apply (proj1 (NoDup_nth_error (map label (template props))) ND).
    + rewrite length_map. apply nth_error_Some. congruence.
    + rewrite !nth_error_map, Hi, Hj. simpl. congruence.
Qed.

Example render_example :
  map MenubarItem.render (Menubar.render (exampleProps (Some "Edit") 0 None)) =
  [ {| className := "menubarItem"; data_label := "File" |};
    {| className := "menubarItem selected"; data_label := "Edit" |};
    {| className := "menubarItem"; data_label := "View" |} ].
Proof. reflexivity. Qed.

(** X6. The re-render gate: [shouldComponentUpdate] answers false exactly
    when the selected label is the same in the old and the new props; a
    change of the template, of the selected index, of autohide, of the
    context-menu detail or of the last focused selector alone does not
    make the menubar render again. *)
Theorem shouldComponentUpdate_only_selectedLabel :
  forall (props nextProps : MenubarProps),
    (Menubar.shouldComponentUpdate props nextProps = false <->
     selectedLabel props = selectedLabel nextProps) /\
    (forall t i a d s,
       Menubar.shouldComponentUpdate props
         {| template := t; selectedLabel := selectedLabel props;
            selectedIndex := i; autohide := a; contextMenuDetail := d;
            lastFocusedSelector := s |} = false).
Proof.
  intros props nextProps. split.
  - apply shouldComponentUpdate_selectedLabel.
  - intros. apply shouldComponentUpdate_selectedLabel. reflexivity.
Qed.

(** ** The rectangles of the rendered menubar *)

Lemma rects_of_nil (layout : nat -> Rect) (spans : list Span) (k : nat)
    (l : string) :
  rects_of layout k spans l = [] <->
  forall s, In s spans -> data_label s <> l.
Proof.
  revert k. induction spans as [|a spans IH]; intros k; simpl.
  - split; [intros _ s []|reflexivity].
  - destruct (String.eqb_spec (data_label a) l) as [E|E].
    + split; [discriminate|]. intros H. exfalso. exact (H a (or_introl eq_refl) E).
    + rewrite IH. split.
      * intros H s [<-|Hin]; auto.
      * intros H s Hin. apply H. now right.
Qed.

Lemma rects_of_single (layout : nat -> Rect) (spans : list Span) (k : nat)
    (l : string) (r : Rect) :
  rects_of layout k spans l = [r] <->
  exists i s,
    nth_error spans i = Some s /\ data_label s = l /\ r = layout (k + i)%nat /\
    forall j s', nth_error spans j = Some s' -> data_label s' = l -> j = i.
Proof.
  revert k. induction spans as [|a spans IH]; intros k; simpl.
  - split; [discriminate|]. intros (i & s & H & _). destruct i; discriminate.
  - destruct (String.eqb_spec (data_label a) l) as [E|E].
    + split.
      * intros [= <- N0]. pose proof (proj1 (rects_of_nil _ _ _ _) N0) as N.
        exists 0%nat, a. simpl. repeat split; auto; try (f_equal; lia).
        intros [|j] s' Hs' Hl; [reflexivity|]. simpl in Hs'.
        exfalso. exact (N s' (nth_error_In _ _ Hs') Hl).
      * intros (i & s & Hn & Hl & -> & U). destruct i as [|i].
        -- replace (k + 0)%nat with k by lia. f_equal.
           apply (proj2 (rects_of_nil _ _ _ _)). intros s' Hin Hl'.
           apply In_nth_error in Hin as (j & Hj).
           specialize (U (S j) s' Hj Hl'). discriminate.
        -- specialize (U 0%nat a eq_refl E). discriminate.
    + rewrite IH. split.
      * intros (i & s & Hn & Hl & -> & U). exists (S i), s. simpl.
        repeat split; auto; try (f_equal; lia).
        intros [|j] s' Hs' Hl'; simpl in Hs'; [congruence|].
        f_equal. exact (U j s' Hs' Hl').
      * intros (i & s & Hn & Hl & -> & U). destruct i as [|i];
          [simpl in Hn; congruence|].
        exists i, s. simpl in Hn. repeat split; auto; try (f_equal; lia).
        intros j s' Hs' Hl'. specialize (U (S j) s' Hs' Hl'). congruence.
Qed.

Lemma rendered_nth (props : MenubarProps) (i : nat) (s : Span) :
  nth_error (Menubar.rendered props) i = Some s <->
  exists entry, nth_error (template props) i = Some entry /\
                data_label s = label entry /\
                s = MenubarItem.render
                      {| MenubarItem.label := label entry;
                         MenubarItem.submenu := submenu entry;
                         MenubarItem.menubar := props;
                         MenubarItem.lastFocusedSelector := lastFocusedSelector props;
                         MenubarItem.selected :=
                           strict_eq (label entry) (selectedLabel props) |}.
Proof.
  unfold Menubar.rendered, Menubar.render. rewrite !nth_error_map.
  destruct (nth_error (template props) i) as [entry|]; simpl; split.
  - intros [= <-]. exists entry. auto.
  - intros (entry' & [= <-] & _ & ->). reflexivity.
  - discriminate.
  - intros (entry' & H & _). discriminate.
Qed.

Lemma append_length (a b : string) :
  String.length (a ++ b) = (String.length a + String.length b)%nat.
Proof. induction a as [|c a IH]; simpl; [reflexivity|]. now rewrite IH. Qed.

Lemma strip_prefix_app (p s : string) : strip_prefix p (p ++ s) = Some s.
Proof.
  induction p as [|c p IH]; simpl; [destruct s; reflexivity|].
  rewrite Ascii.eqb_refl. exact IH.
Qed.

Lemma strip_suffix_unfold (q s : string) :
  strip_suffix q s =
  if (s =? q)%string then Some EmptyString
  else match s with
       | EmptyString => None
       | String a s' =>
           match strip_suffix q s' with
           | Some r => Some (String a r)
           | None => None
           end
       end.
Proof. destruct s; reflexivity. Qed.

Lemma strip_suffix_app (q b : string) : strip_suffix q (b ++ q) = Some b.
Proof.
  induction b as [|c b IH].
  - change (("" ++ q)%string) with q.
    rewrite strip_suffix_unfold, String.eqb_refl. reflexivity.
  - change ((String c b ++ q)%string) with (String c (b ++ q)).
    rewrite strip_suffix_unfold.
    destruct (String.eqb_spec (String c (b ++ q)) q) as [E|_].
    + apply (f_equal String.length) in E. simpl in E.
      rewrite append_length in E. lia.
    + rewrite IH. reflexivity.
Qed.

Lemma data_label_of_selector (l : string) :
  data_label_of (Menubar.menubarItemSelector (Some l)) = Some l.
Proof.
  unfold data_label_of, Menubar.menubarItemSelector, to_string.
  rewrite strip_prefix_app. apply strip_suffix_app.
Qed.

Lemma getRectByLabel_plain (layout : nat -> Rect) (others : string -> nat)
    (special : string -> Queried) (props : MenubarProps) (l : string) :
  plain l = true ->
  Menubar.getRectByLabel (document_of layout others special props) (Some l) =
  Normal (match rects_of layout 0 (Menubar.rendered props) l with
          | [item] => Some item
          | _ => None
          end).
Proof.
  intros P. unfold Menubar.getRectByLabel, document_of.
  cbn [querySelectorAll]. rewrite data_label_of_selector, P. reflexivity.
Qed.

(** X7. In the document that holds the spans [render] produces, take a
    label of plain characters.  The lookup of its rectangle completes, and
    it finds a rectangle exactly when one entry of the template, and no
    other, carries the label; it is then the rectangle of that entry's
    span.  Such a label that is not in the template, or is in it twice, has
    no rectangle. *)
Theorem getRectByLabel_rendered :
  forall (layout : nat -> Rect) (others : string -> nat)
         (special : string -> Queried) (props : MenubarProps) (l : string),
    plain l = true ->
    (exists found,
       Menubar.getRectByLabel (document_of layout others special props) (Some l)
       = Normal found) /\
    forall r,
      Menubar.getRectByLabel (document_of layout others special props) (Some l)
      = Normal (Some r) <->
      exists i entry,
        nth_error (template props) i = Some entry /\ label entry = l /\
        r = layout i /\
        forall j other, nth_error (template props) j = Some other ->
                        label other = l -> j = i.
Proof.
  intros layout others special props l P.
  rewrite (getRectByLabel_plain layout others special props l P).
  split; [eexists; reflexivity|]. intros r.
  assert (Normal (match rects_of layout 0 (Menubar.rendered props) l with
                  | [item] => Some item
                  | _ => None
                  end) = Normal (Some r) <->
          rects_of layout 0 (Menubar.rendered props) l = [r]) as ->.
  { destruct (rects_of layout 0 (Menubar.rendered props) l) as [|x [|y rs]];
      split; congruence. }
  rewrite rects_of_single. split.
  - intros (i & s & Hn & Hl & -> & U).
    apply rendered_nth in Hn as (entry & He & Hd & _).
    exists i, entry. repeat split; auto; [congruence|].
    intros j other Ho Hlo.
    apply (U j (MenubarItem.render
                  {| MenubarItem.label := label other;
                     MenubarItem.submenu := submenu other;
                     MenubarItem.menubar := props;
                     MenubarItem.lastFocusedSelector := lastFocusedSelector props;
                     MenubarItem.selected :=
                       strict_eq (label other) (selectedLabel props) |})).
    + apply rendered_nth. exists other. auto.
    + exact Hlo.
  - intros (i & entry & He & Hl & -> & U).
    exists i, (MenubarItem.render
                 {| MenubarItem.label := label entry;
                    MenubarItem.submenu := submenu entry;
                    MenubarItem.menubar := props;
                    MenubarItem.lastFocusedSelector := lastFocusedSelector props;
                    MenubarItem.selected :=
                      strict_eq (label entry) (selectedLabel props) |}).
    split; [apply rendered_nth; exists entry; repeat split; assumption|].
    split; [exact Hl|]. split; [reflexivity|].
    intros j s' Hs' Hl'. apply rendered_nth in Hs' as (other & Ho & Hd & _).
    apply (U j other Ho). congruence.
Qed.

Lemma getRectByLabel_rendered_witness :
  exists found,
    Menubar.getRectByLabel exampleDom (Some "Edit") = Normal found.
Proof.
  exact (proj1 (getRectByLabel_rendered exampleLayout exampleOthers
                  exampleSpecial (exampleProps None 0 None) "Edit" eq_refl)).
Defined.

Example getRectByLabel_examples :
  Menubar.getRectByLabel exampleDom (Some "Edit") =
    Normal (Some (exampleLayout 1)) /\
  Menubar.getRectByLabel exampleDom (Some "Help") = Normal None /\
  Menubar.getRectByLabel (documentWith twoFileMenus) (Some "File") = Normal None /\
  Menubar.getRectByLabel (documentWith whatsNewSelected) (Some whatsNew) =
    Throw SyntaxError /\
  plain "Edit" = true /\ plain whatsNew = false.
Proof. repeat split. Qed.

Example onKeyDown_UP_whatsNew_selected :
  Menubar.onKeyDown domKeyCodes whatsNewSelected (documentWith whatsNewSelected)
    (key 38) = ([PreventDefault], Throw SyntaxError).
Proof. reflexivity. Qed.

(** ** LEFT and RIGHT: cycling *)

Lemma nextIndex_step keyCodes (props : MenubarProps) (e : KeyEvent) :
  Menubar.selectedLabelIndex props <> -1 ->
  let n := Immutable.size (template props) in
  let current := Menubar.selectedLabelIndex props in
  (which e = RIGHT keyCodes ->
   Menubar.nextIndex keyCodes props e = (current + 1) mod n) /\
  (which e = LEFT keyCodes ->
   Menubar.nextIndex keyCodes props e = (current - 1) mod n).
Proof.
  intros N n current.
  destruct (selectedLabelIndex_found props N) as [R _].
  pose proof (keyCodes_neq keyCodes) as D.
  unfold Menubar.nextIndex. fold current. fold n in R |- *. fold current in R.
  destruct (Z.eqb_spec current (-1)); [contradiction|].
  unfold wrappingClamp. split.
  - intros ->.
    destruct (Z.eqb_spec (RIGHT keyCodes) (LEFT keyCodes)); [intuition congruence|].
    destruct (Z.ltb_spec (n - 1) (current + 1)).
    + replace (current + 1) with n by lia. symmetry. apply Z_mod_same_full.
    + destruct (Z.ltb_spec (current + 1) 0); [lia|].
      symmetry. apply Z.mod_small. lia.
  - intros ->. rewrite Z.eqb_refl.
    replace (current + -1) with (current - 1) by lia.
    destruct (Z.ltb_spec (n - 1) (current - 1)); [lia|].
    destruct (Z.ltb_spec (current - 1) 0).
    + apply Z.mod_unique with (q := -1); lia.
    + symmetry. apply Z.mod_small. lia.
Qed.

(** X8. When the selected label is in the template, found first at index
    [current], Right moves to index (current + 1) mod n and Left to index
    (current - 1) mod n, n being the size of the template. *)
Theorem nextIndex_modular :
  forall keyCodes (props : MenubarProps) (e : KeyEvent) (entry : MenuEntry),
    In entry (template props) ->
    selectedLabel props = Some (label entry) ->
    (which e = RIGHT keyCodes ->
     Menubar.nextIndex keyCodes props e =
       (Menubar.selectedLabelIndex props + 1) mod Immutable.size (template props)) /\
    (which e = LEFT keyCodes ->
     Menubar.nextIndex keyCodes props e =
       (Menubar.selectedLabelIndex props - 1) mod Immutable.size (template props)).
Proof.
  intros keyCodes props e entry Hin Hsel.
  apply nextIndex_step. intros C.
  exact (proj1 (selectedLabelIndex_none props) C entry Hin Hsel).
Qed.

Lemma nextIndex_modular_witness :
  Menubar.nextIndex domKeyCodes (exampleProps (Some "View") 0 None) (key 39) =
  (2 + 1) mod 3.
Proof.
  exact (proj1 (nextIndex_modular domKeyCodes (exampleProps (Some "View") 0 None)
                  (key 39) viewMenu
                  (or_intror (or_intror (or_introl eq_refl))) eq_refl)
               eq_refl).
Defined.

Lemma findIndex_unique (t : list MenuEntry) (i : nat) (entry : MenuEntry) :
  NoDup (map label t) ->
  nth_error t i = Some entry ->
  Immutable.findIndex (fun x => strict_eq (label x) (Some (label entry))) t
  = Z.of_nat i.
Proof.
  intros ND Hn.
  set (f := fun x => strict_eq (label x) (Some (label entry))).
  assert (Immutable.findIndex f t <> -1) as N.
  { intros C. apply findIndex_none in C.
    pose proof (find_none f t C entry (nth_error_In _ _ Hn)) as K.
    unfold f in K. simpl in K. rewrite String.eqb_refl in K. discriminate. }
  destruct (findIndex_found f t N) as (x & Hx & Fx & _).
  destruct (findIndex_range f t) as [C|R]; [contradiction|].
  unfold f in Fx. apply strict_eq_true in Fx. injection Fx as E.
  assert (Z.to_nat (Immutable.findIndex f t) = i) as <-; [|lia].
  apply (proj1 (NoDup_nth_error (map label t)) ND).
  - rewrite length_map. apply nth_error_Some. congruence.
  - rewrite !nth_error_map, Hx, Hn. simpl. congruence.
Qed.

Lemma selectedLabelIndex_after keyCodes (props props' : MenubarProps)
    (e : KeyEvent) :
  NoDup (map label (template props)) ->
  0 < Immutable.size (template props) ->
  template props' = template props ->
  selectedLabel props' = Menubar.nextLabel keyCodes props e ->
  Menubar.selectedLabelIndex props' = Menubar.nextIndex keyCodes props e.
Proof.
  intros ND H T S.
  destruct (nextLabel_some keyCodes props e H) as (element & Hn & Hl).
  pose proof (nextIndex_range keyCodes props e H) as R.
  unfold Menubar.selectedLabelIndex. rewrite T, S, Hl.
  rewrite (findIndex_unique _ _ _ ND Hn). lia.
Qed.

Lemma opposite_key_returns keyCodes (props props' : MenubarProps)
    (e e' : KeyEvent) (entry : MenuEntry) :
  NoDup (map label (template props)) ->
  In entry (template props) ->
  selectedLabel props = Some (label entry) ->
  (which e = RIGHT keyCodes /\ which e' = LEFT keyCodes) \/
  (which e = LEFT keyCodes /\ which e' = RIGHT keyCodes) ->
  template props' = template props ->
  selectedLabel props' = Menubar.nextLabel keyCodes props e ->
  Menubar.nextLabel keyCodes props' e' = selectedLabel props.
Proof.
  intros ND Hin Hsel K T S.
  assert (0 < Immutable.size (template props)) as H.
  { unfold Immutable.size. destruct (template props); [destruct Hin|].
    simpl List.length. lia. }
  assert (Menubar.selectedLabelIndex props <> -1) as N.
  { intros C. exact (proj1 (selectedLabelIndex_none props) C entry Hin Hsel). }
  destruct (selectedLabelIndex_found props N) as (R & current & Hc & Sc).
  pose proof (selectedLabelIndex_after keyCodes props props' e ND H T S) as I.
  pose proof (nextIndex_range keyCodes props e H) as Rn.
  assert (Menubar.selectedLabelIndex props' <> -1) as N' by lia.
  destruct (nextIndex_step keyCodes props e N) as [Sr Sl].
  destruct (nextIndex_step keyCodes props' e' N') as [Sr' Sl'].
  assert (Menubar.nextIndex keyCodes props' e' = Menubar.selectedLabelIndex props)
    as J.
  { destruct K as [[Ke Ke']|[Ke Ke']].
    - rewrite (Sl' Ke'), I, (Sr Ke), T.
      rewrite Zminus_mod_idemp_l.
      replace (Menubar.selectedLabelIndex props + 1 - 1)
        with (Menubar.selectedLabelIndex props) by lia.
      apply Z.mod_small. lia.
    - rewrite (Sr' Ke'), I, (Sl Ke), T.
      rewrite Zplus_mod_idemp_l.
      replace (Menubar.selectedLabelIndex props - 1 + 1)
        with (Menubar.selectedLabelIndex props) by lia.
      apply Z.mod_small. lia. }
  unfold Menubar.nextLabel, Menubar.getIn_label. rewrite J, T.
  rewrite get_in_range by assumption. rewrite Hc. congruence.
Qed.

Lemma exampleTemplate_labels_distinct : NoDup (map label exampleTemplate).
Proof. repeat constructor; simpl; intuition discriminate. Qed.

(** X9. Left undoes Right and Right undoes Left.  Let the labels of the
    template be distinct and not empty, and the selected label be one of
    them; once the label dispatched by one of the two keys has become the
    selected label, the other key dispatches the label that was selected
    before, provided the lookup of the rectangle of that label
    completes. *)
Theorem LEFT_and_RIGHT_are_inverse :
  forall keyCodes (props props' : MenubarProps) (dom dom' : Dom)
         (e e' : KeyEvent) (entry : MenuEntry),
    NoDup (map label (template props)) ->
    (forall x, In x (template props) -> label x <> "") ->
    In entry (template props) ->
    selectedLabel props = Some (label entry) ->
    (which e = RIGHT keyCodes /\ which e' = LEFT keyCodes) \/
    (which e = LEFT keyCodes /\ which e' = RIGHT keyCodes) ->
    template props' = template props ->
    In (SetMenubarSelectedLabel (selectedLabel props'))
       (trace (Menubar.onKeyDown keyCodes props dom e)) ->
    (exists found,
       Menubar.getRectByLabel dom' (Some (label entry)) = Normal found) ->
    In (SetMenubarSelectedLabel (selectedLabel props))
       (trace (Menubar.onKeyDown keyCodes props' dom' e')) /\
    Menubar.nextLabel keyCodes props' e' = selectedLabel props.
Proof.
  intros keyCodes props props' dom dom' e e' entry ND NE Hin Hsel K T D
    (found & Found).
  assert (0 < Immutable.size (template props)) as H.
  { unfold Immutable.size. destruct (template props); [destruct Hin|].
    simpl List.length. lia. }
  assert (forall x, In x (template props) ->
                    truthy_string (Some (label x)) = true) as Truthy.
  { intros x Hx. simpl. destruct (String.eqb_spec (label x) "");
      [exfalso; exact (NE x Hx e0)|reflexivity]. }
  assert (truthy_string (selectedLabel props) = true) as Tr
    by (rewrite Hsel; exact (Truthy entry Hin)).
  assert (which e = LEFT keyCodes \/ which e = RIGHT keyCodes) as Ke by tauto.
  assert (which e' = LEFT keyCodes \/ which e' = RIGHT keyCodes) as Ke' by tauto.
  assert (selectedLabel props' = Menubar.nextLabel keyCodes props e) as S.
  { rewrite (switch_LEFT_RIGHT keyCodes props dom e Ke) in D.
    destruct (case_LEFT_RIGHT_run keyCodes props dom e (or_intror Tr) H)
      as (next & submenu & Hl & _ & E).
    rewrite E in D. rewrite Hl.
    destruct (Menubar.getRectByLabel dom (Some next)) as [r|ex];
      [|simpl in D; intuition discriminate].
    destruct (contextMenuDetail props), (Menubar.selectedTemplate props), r;
      simpl in D; intuition congruence. }
  pose proof (opposite_key_returns keyCodes props props' e e' entry
                ND Hin Hsel K T S) as Back.
  split; [|exact Back].
  assert (truthy_string (selectedLabel props') = true) as Tr'.
  { destruct (nextLabel_some keyCodes props e H) as (element & Hn & Hl).
    rewrite S, Hl. exact (Truthy element (nth_error_In _ _ Hn)). }
  rewrite (switch_LEFT_RIGHT keyCodes props' dom' e' Ke').
  destruct (case_LEFT_RIGHT_run keyCodes props' dom' e' (or_intror Tr'))
    as (next & submenu & Hl & _ & ->); [rewrite T; exact H|].
  assert (next = label entry) as -> by congruence.
  rewrite Found, Hsel. simpl. right. now left.
Qed.

Lemma LEFT_and_RIGHT_are_inverse_witness :
  In (SetMenubarSelectedLabel (Some "View"))
     (trace (Menubar.onKeyDown domKeyCodes (exampleProps (Some "File") 0 None)
               exampleDom (key 37))).
Proof.
  refine (proj1 (LEFT_and_RIGHT_are_inverse domKeyCodes
                   (exampleProps (Some "View") 0 None)
                   (exampleProps (Some "File") 0 None)
                   exampleDom exampleDom (key 39) (key 37) viewMenu
                   exampleTemplate_labels_distinct _
                   (or_intror (or_intror (or_introl eq_refl))) eq_refl
                   (or_introl (conj eq_refl eq_refl)) eq_refl _ _)).
  - intros x [<-|[<-|[<-|[]]]]; discriminate.
  - simpl. right. left. reflexivity.
  - eexists. reflexivity.
Defined.

(** ** UP and DOWN: the submenu index *)

(** X10. While a context menu is open, Up and Down keep the submenu index
    among the selected visible items: from an index within [0, max - 1],
    max being the number of those items, Down dispatches (index + 1) mod max
    and Up dispatches (index - 1) mod max, and nothing else apart from
    preventDefault. *)
Theorem onKeyDown_UP_DOWN_keeps_index_in_range :
  forall keyCodes (props : MenubarProps) dom e (t : list SubmenuEntry),
    which e = UP keyCodes \/ which e = DOWN keyCodes ->
    truthy_string (selectedLabel props) = true ->
    Menubar.selectedTemplate props = Some t ->
    contextMenuDetail props <> None ->
    0 <= selectedIndex props < Immutable.size (filter Menubar.itemsOnly t) ->
    exists next,
      Menubar.onKeyDown keyCodes props dom e =
        ([PreventDefault; SetSubmenuSelectedIndex next], Normal tt) /\
      0 <= next < Immutable.size (filter Menubar.itemsOnly t) /\
      (which e = DOWN keyCodes ->
       next = (selectedIndex props + 1)
              mod Immutable.size (filter Menubar.itemsOnly t)) /\
      (which e = UP keyCodes ->
       next = (selectedIndex props - 1)
              mod Immutable.size (filter Menubar.itemsOnly t)).
Proof.
  intros keyCodes props dom e t K S T C R.
  destruct (onKeyDown_UP_DOWN_run keyCodes props dom e t K S T)
    as (_ & Move & _).
  rewrite (Move (or_introl C)).
  set (max := Immutable.size (filter Menubar.itemsOnly t)) in *.
  pose proof (keyCodes_neq keyCodes) as D.
  eexists. split; [reflexivity|].
  split; [pose proof (wrappingClamp_range
                        (selectedIndex props +
                           (if which e =? UP keyCodes then -1 else 1))
                        0 (max - 1)); lia|].
  unfold wrappingClamp. split.
  - intros Kd. rewrite Kd.
    destruct (Z.eqb_spec (DOWN keyCodes) (UP keyCodes)); [intuition congruence|].
    destruct (Z.ltb_spec (max - 1) (selectedIndex props + 1)).
    + replace (selectedIndex props + 1) with max by lia.
      symmetry. apply Z_mod_same_full.
    + destruct (Z.ltb_spec (selectedIndex props + 1) 0); [lia|].
      symmetry. apply Z.mod_small. lia.
  - intros Ku. rewrite Ku, Z.eqb_refl.
    replace (selectedIndex props + -1) with (selectedIndex props - 1) by lia.
    destruct (Z.ltb_spec (max - 1) (selectedIndex props - 1)); [lia|].
    destruct (Z.ltb_spec (selectedIndex props - 1) 0).
    + apply Z.mod_unique with (q := -1); lia.
    + symmetry. apply Z.mod_small. lia.
Qed.

Lemma onKeyDown_UP_DOWN_keeps_index_in_range_witness :
  exists next,
    Menubar.onKeyDown domKeyCodes (exampleProps (Some "File") 1 (Some someDetail))
      exampleDom (key 40) =
      ([PreventDefault; SetSubmenuSelectedIndex next], Normal tt) /\
    0 <= next < 2.
Proof.
  destruct (onKeyDown_UP_DOWN_keeps_index_in_range domKeyCodes
              (exampleProps (Some "File") 1 (Some someDetail)) exampleDom (key 40)
              [newTab; Separator; debugItem; closeTab]
              (or_intror eq_refl) eq_refl eq_refl)
    as (next & E & R & _).
  - discriminate.
  - vm_compute. split; [discriminate|reflexivity].
  - exists next. split; [exact E|exact R].
Defined.

(** ** ENTER and the entries of the context menu *)

Lemma get_In {A} (l : list A) (i : Z) (x : A) :
  Immutable.get l i = Some x -> In x l.
Proof.
  unfold Immutable.get.
  destruct (_ && _); [|discriminate]. apply nth_error_In.
Qed.

(** X11. Whatever the selected index, Enter never activates a separator or
    a hidden entry: a label it dispatches as clicked is the label of an
    entry of the selected template that is not a separator and whose
    [visible] flag is not false. *)
Theorem onKeyDown_ENTER_clicks_visible_entries_only :
  forall keyCodes (props : MenubarProps) dom e (l : string),
    which e = ENTER keyCodes ->
    In (ClickMenubarSubmenu (Some l))
       (trace (Menubar.onKeyDown keyCodes props dom e)) ->
    exists t v c,
      Menubar.selectedTemplate props = Some t /\
      In (Item l v c) t /\ v <> Some false.
Proof.
  intros keyCodes props dom e l K I.
  rewrite (switch_ENTER keyCodes props dom e K), case_ENTER_run in I.
  destruct (Menubar.selectedTemplate props) as [t|];
    [|simpl in I; intuition discriminate].
  simpl in I. destruct I as [I|[I|[I|[]]]]; try discriminate.
  injection I as I. unfold Menubar.getIn_item_label in I.
  destruct (Immutable.get _ _) as [[|l' v c]|] eqn:G; try discriminate.
  injection I as ->. apply get_In in G. apply filter_In in G as [Hin V].
  exists t, v, c. repeat split; auto.
  intros ->. discriminate.
Qed.

Lemma onKeyDown_ENTER_clicks_visible_entries_only_witness :
  exists t v c,
    Menubar.selectedTemplate (exampleProps (Some "File") (-1) None) = Some t /\
    In (Item "Close Tab" v c) t /\ v <> Some false.
Proof.
  apply (onKeyDown_ENTER_clicks_visible_entries_only domKeyCodes
           (exampleProps (Some "File") (-1) None) exampleDom (key 13)
           "Close Tab" eq_refl).
  simpl. right. left. reflexivity.
Defined.

Lemma filter_wrap_click (s : option string) (t : list SubmenuEntry) :
  filter Menubar.itemsOnly (map (wrap_click s) t) =
  map (wrap_click s) (filter Menubar.itemsOnly t).
Proof.
  induction t as [|x t IH]; [reflexivity|].
  destruct x as [|l [[|]|] c]; simpl; rewrite IH; reflexivity.
Qed.

(** X12. Enter activates the highlighted entry of the open context menu.
    With the selected index within the selected visible items, the entry at
    that index among the visible entries of the template that
    [showContextMenu] displays carries a click handler whose last effect is
    the very intent that Enter dispatches before it resets the menu. *)
Theorem onKeyDown_ENTER_is_click_on_highlighted_entry :
  forall keyCodes (props : MenubarProps) dom e (t : list SubmenuEntry)
         (rect : Rect),
    which e = ENTER keyCodes ->
    Menubar.selectedTemplate props = Some t ->
    0 <= selectedIndex props < Immutable.size (filter Menubar.itemsOnly t) ->
    exists detail l v,
      showContextMenu rect t (lastFocusedSelector props) =
        ([SetContextMenuDetail (Some detail)], Normal tt) /\
      nth_error (filter Menubar.itemsOnly (detail_template detail))
        (Z.to_nat (selectedIndex props)) =
        Some (Item l v (MenubarClick (lastFocusedSelector props) l)) /\
      (forall dom', exists focused,
         click dom' (lastFocusedSelector props) l =
           (PreventDefault :: focused ++ [ClickMenubarSubmenu (Some l)],
            Normal tt)) /\
      Menubar.onKeyDown keyCodes props dom e =
        ([PreventDefault; ClickMenubarSubmenu (Some l); ResetMenuState],
         Normal tt).
Proof.
  intros keyCodes props dom e t rect K T R.
  rewrite (switch_ENTER keyCodes props dom e K), case_ENTER_run, T.
  unfold Menubar.getIn_item_label. rewrite get_in_range by assumption.
  destruct (nth_error (filter Menubar.itemsOnly t)
              (Z.to_nat (selectedIndex props))) as [x|] eqn:N.
  2: { apply nth_error_None in N. unfold Immutable.size in R. lia. }
  pose proof (nth_error_In _ _ N) as I. apply filter_In in I as [_ V].
  destruct x as [|l v c]; [discriminate|].
  eexists. exists l, v. split; [reflexivity|]. simpl.
  split; [rewrite filter_wrap_click, nth_error_map, N; reflexivity|].
  split; [|reflexivity].
  intros dom'. destruct (click_trace dom' (lastFocusedSelector props) l)
    as (focused & E & _).
  exists focused. exact E.
Qed.

Lemma onKeyDown_ENTER_is_click_on_highlighted_entry_witness :
  exists detail l v,
    showContextMenu (exampleLayout 0) [newTab; Separator; debugItem; closeTab]
      (Some webview) = ([SetContextMenuDetail (Some detail)], Normal tt) /\
    nth_error (filter Menubar.itemsOnly (detail_template detail)) 1 =
      Some (Item l v (MenubarClick (Some webview) l)) /\
    Menubar.onKeyDown domKeyCodes (exampleProps (Some "File") 1 (Some someDetail))
      exampleDom (key 13) =
      ([PreventDefault; ClickMenubarSubmenu (Some l); ResetMenuState], Normal tt).
Proof.
  destruct (onKeyDown_ENTER_is_click_on_highlighted_entry domKeyCodes
              (exampleProps (Some "File") 1 (Some someDetail)) exampleDom (key 13)
              [newTab; Separator; debugItem; closeTab] (exampleLayout 0)
              eq_refl eq_refl)
    as (detail & l & v & S & N & _ & E).
  - vm_compute. split; [discriminate|reflexivity].
  - exists detail, l, v. split; [exact S|]. split; [exact N|exact E].
Defined.

(** ** What a key event can dispatch *)

(** The traces of [onKeyDown]. *)
Lemma onKeyDown_shapes keyCodes (props : MenubarProps) dom e :
  let t := trace (Menubar.onKeyDown keyCodes props dom e) in
  t = [] \/
  t = [PreventDefault] \/
  (exists l, which e = ENTER keyCodes /\
             Menubar.selectedTemplate props <> None /\
             t = [PreventDefault; ClickMenubarSubmenu l; ResetMenuState]) \/
  (exists n, template props <> [] /\
             t = [PreventDefault; SetMenubarSelectedLabel (Some n)]) \/
  (exists n d, template props <> [] /\
               Menubar.selectedTemplate props <> None /\
               t = [PreventDefault; SetMenubarSelectedLabel (Some n);
                    SetSubmenuSelectedIndex 0; SetContextMenuDetail (Some d)]) \/
  (exists d, Menubar.selectedTemplate props <> None /\
             t = [PreventDefault; SetSubmenuSelectedIndex 0;
                  SetContextMenuDetail (Some d)]) \/
  (exists i, Menubar.selectedTemplate props <> None /\
             t = [PreventDefault; SetSubmenuSelectedIndex i]).
Proof.
  intros t. subst t. unfold Menubar.onKeyDown.
  destruct (Z.eqb_spec (which e) (ENTER keyCodes)) as [K|K].
  { rewrite case_ENTER_run.
    destruct (Menubar.selectedTemplate props) as [s|] eqn:T; simpl.
    - right; right; left. eexists. repeat split; auto. discriminate.
    - right; left. reflexivity. }
  assert (autohide props = true \/ truthy_string (selectedLabel props) = true \/
          (autohide props = false /\ truthy_string (selectedLabel props) = false))
    as [G|[G|[A S]]]
    by (destruct (autohide props), (truthy_string (selectedLabel props)); auto).
  3: { destruct (case_arrows_blocked keyCodes props dom e A S) as [-> ->].
       left. destruct (_ || _); [reflexivity|]. destruct (_ || _); reflexivity. }
  all: assert (autohide props = true \/
               truthy_string (selectedLabel props) = true) as G' by tauto;
    clear G; destruct (_ || _).
  1, 3: destruct (template props) as [|m ms] eqn:T;
    [ rewrite (case_LEFT_RIGHT_empty keyCodes props dom e G' T);
      right; left; reflexivity
    | destruct (case_LEFT_RIGHT_run keyCodes props dom e G')
        as (next & submenu & _ & _ & ->);
      [ rewrite T; unfold Immutable.size; simpl List.length; lia | ];
      destruct (Menubar.getRectByLabel dom (Some next)) as [found|ex];
      [ | right; left; reflexivity ];
      destruct (contextMenuDetail props), (Menubar.selectedTemplate props),
        found; simpl;
      try (right; right; right; left; eexists; split;
           [discriminate|reflexivity]);
      right; right; right; right; left; do 2 eexists;
      repeat split; try discriminate ].
  all: destruct (_ || _); [|left; reflexivity];
    rewrite (case_UP_DOWN_run keyCodes props dom e G');
    destruct (truthy_string (selectedLabel props));
    [|right; left; reflexivity];
    destruct (Menubar.selectedTemplate props) as [s|];
    [|right; left; reflexivity];
    cbv zeta;
    destruct (contextMenuDetail props);
    [ right; right; right; right; right; right; eexists; split;
      [discriminate|reflexivity] | ];
    destruct (Menubar.selectedRect dom props) as [[rect|]|ex]; simpl;
    [ right; right; right; right; right; left; eexists; split;
      [discriminate|reflexivity]
    | right; right; right; right; right; right; eexists; split;
      [discriminate|reflexivity]
    | right; left; reflexivity ].
Qed.

(** X13. The keyboard never deselects and never closes the context menu
    by itself: no key makes [onKeyDown] dispatch a clear of the selected
    label or of the context-menu detail, stop the propagation of the event
    or move the focus.  The menu state is reset on Enter only, and only
    when a selected template exists. *)
Theorem onKeyDown_never_clears :
  forall keyCodes (props : MenubarProps) dom e,
    ~ In (SetMenubarSelectedLabel None)
         (trace (Menubar.onKeyDown keyCodes props dom e)) /\
    ~ In (SetContextMenuDetail None)
         (trace (Menubar.onKeyDown keyCodes props dom e)) /\
    ~ In StopPropagation (trace (Menubar.onKeyDown keyCodes props dom e)) /\
    (forall selector,
       ~ In (Focus selector) (trace (Menubar.onKeyDown keyCodes props dom e))) /\
    (In ResetMenuState (trace (Menubar.onKeyDown keyCodes props dom e)) ->
     which e = ENTER keyCodes /\ Menubar.selectedTemplate props <> None).
Proof.
  intros keyCodes props dom e.
  destruct (onKeyDown_shapes keyCodes props dom e)
    as [E|[E|[(l & K & T & E)|[(n & _ & E)|[(n & d & _ & _ & E)|[(d & _ & E)|(i & _ & E)]]]]]];
    rewrite E; simpl;
    (split; [|split; [|split; [|split]]]);
    try (intuition discriminate);
    try (intros selector; intuition discriminate).
Qed.

(** X14. With nothing to act on, the keyboard dispatches no intent: when
    the selected label matches no entry of the template, Enter, Up, Down and
    every key other than Left and Right do at most preventDefault; when the
    template is empty, so do Left and Right. *)
Theorem onKeyDown_without_selected_template :
  forall keyCodes (props : MenubarProps) dom e,
    (Menubar.selectedTemplate props = None ->
     which e <> LEFT keyCodes -> which e <> RIGHT keyCodes ->
     trace (Menubar.onKeyDown keyCodes props dom e) = [] \/
     trace (Menubar.onKeyDown keyCodes props dom e) = [PreventDefault]) /\
    (template props = [] ->
     trace (Menubar.onKeyDown keyCodes props dom e) = [] \/
     trace (Menubar.onKeyDown keyCodes props dom e) = [PreventDefault]).
Proof.
  intros keyCodes props dom e. split.
  - intros T L R.
    destruct (onKeyDown_shapes keyCodes props dom e)
      as [E|[E|[(l & _ & N & _)|[(n & _ & E)|[(n & d & _ & N & _)|[(d & N & _)|(i & N & _)]]]]]];
      auto; try contradiction.
    exfalso. revert E. unfold Menubar.onKeyDown.
    destruct (Z.eqb_spec (which e) (ENTER keyCodes)).
    + rewrite case_ENTER_run, T. discriminate.
    + destruct (Z.eqb_spec (which e) (LEFT keyCodes)); [contradiction|].
      destruct (Z.eqb_spec (which e) (RIGHT keyCodes)); [contradiction|].
      simpl. destruct (_ || _); [|discriminate].
      unfold Menubar.case_UP_DOWN. rewrite T, andb_false_r.
      destruct (_ && _); discriminate.
  - intros T.
    destruct (onKeyDown_shapes keyCodes props dom e)
      as [E|[E|[(l & _ & N & _)|[(n & N & _)|[(n & d & N & _)|[(d & N & _)|(i & N & _)]]]]]];
      auto; try contradiction;
      exfalso; apply N; unfold Menubar.selectedTemplate, Menubar.getTemplateByLabel;
      rewrite T; reflexivity.
Qed.

Example onKeyDown_ENTER_unknown_label :
  Menubar.onKeyDown domKeyCodes (exampleProps (Some "Help") 0 (Some someDetail))
    exampleDom (key 13) = ([PreventDefault], Normal tt).
Proof. reflexivity. Qed.

(** ** Opening a context menu again *)

Lemma wrap_click_twice (s1 s2 : option string) (t : list SubmenuEntry) :
  map (wrap_click s2) (map (wrap_click s1) t) = map (wrap_click s2) t.
Proof.
  rewrite map_map. apply map_ext. intros [|l v c]; reflexivity.
Qed.

(** X15. [showContextMenu] assigns its handlers to the entries it is
    given.  Called on entries that carry the handlers of an earlier call, it
    dispatches the same detail as on the entries the host supplied, the
    handlers holding the selector of the later call.  The assignment changes
    neither which entries count as visible items nor the label found at an
    index. *)
Theorem showContextMenu_on_wrapped_entries :
  forall (rect : Rect) (t : list SubmenuEntry) (s1 s2 : option string),
    showContextMenu rect (map (wrap_click s1) t) s2 = showContextMenu rect t s2 /\
    filter Menubar.itemsOnly (map (wrap_click s1) t) =
      map (wrap_click s1) (filter Menubar.itemsOnly t) /\
    (forall i,
       Menubar.getIn_item_label
         (filter Menubar.itemsOnly (map (wrap_click s1) t)) i =
       Menubar.getIn_item_label (filter Menubar.itemsOnly t) i).
Proof.
  intros rect t s1 s2. split; [|split].
  - unfold showContextMenu. rewrite wrap_click_twice. reflexivity.
  - apply filter_wrap_click.
  - intros i. rewrite filter_wrap_click.
    unfold Menubar.getIn_item_label, Immutable.get, Immutable.size.
    rewrite length_map.
    destruct (_ && _); [|reflexivity].
    rewrite nth_error_map.
    destruct (nth_error (filter Menubar.itemsOnly t) _) as [[|l v c]|];
      reflexivity.
Qed.

(** ** Keyboard and mouse *)

Lemma getTemplateByLabel_template (props props' : MenubarProps)
    (l : option string) :
  template props = template props' ->
  Menubar.getTemplateByLabel props l = Menubar.getTemplateByLabel props' l.
Proof.
  intros T. unfold Menubar.getTemplateByLabel. rewrite T. reflexivity.
Qed.

(** X16. The keyboard opens the menu that a click opens.  Take an item as
    rendered, whose label is found first at its own entry.  A click on the
    item while it is not selected, and Up or Down while it is selected with
    no context menu open, dispatch the same context-menu detail, provided
    the rectangle found for the label is the one of the click's target. *)
Theorem keyboard_and_mouse_open_same_menu :
  forall keyCodes (props props0 : MenubarProps) dom e
         (ev : MouseEvent) (item : MenubarItem.Props) (rect : Rect),
    which e = UP keyCodes \/ which e = DOWN keyCodes ->
    In item (Menubar.render props0) ->
    template props = template props0 ->
    lastFocusedSelector props = lastFocusedSelector props0 ->
    Menubar.getTemplateByLabel props0 (Some (MenubarItem.label item)) =
      Some (MenubarItem.submenu item) ->
    selectedLabel props0 <> Some (MenubarItem.label item) ->
    selectedLabel props = Some (MenubarItem.label item) ->
    MenubarItem.label item <> "" ->
    contextMenuDetail props = None ->
    Menubar.selectedRect dom props = Normal (Some rect) ->
    target_getBoundingClientRect ev = rect ->
    exists detail,
      MenubarItem.onClick item (Some ev) =
        (stopped ev ++
         [SetMenubarSelectedLabel (Some (MenubarItem.label item));
          SetContextMenuDetail (Some detail)], Normal tt) /\
      Menubar.onKeyDown keyCodes props dom e =
        ([PreventDefault; SetSubmenuSelectedIndex 0;
          SetContextMenuDetail (Some detail)], Normal tt).
Proof.
  intros keyCodes props props0 dom e ev item rect K Hin T L G N S NE C R Ev.
  unfold Menubar.render in Hin. apply in_map_iff in Hin as (entry & <- & Hentry).
  simpl in *.
  eexists. split.
  - rewrite onClick_select by (right; exact N). simpl. rewrite Ev. reflexivity.
  - assert (truthy_string (selectedLabel props) = true) as Tr.
    { rewrite S. simpl. destruct (String.eqb_spec (label entry) "");
        [contradiction|reflexivity]. }
    assert (Menubar.selectedTemplate props = Some (submenu entry)) as St.
    { unfold Menubar.selectedTemplate.
      rewrite S, (getTemplateByLabel_template props props0 _ T). exact G. }
    destruct (onKeyDown_UP_DOWN_run keyCodes props dom e (submenu entry) K Tr St)
      as [Open _].
    rewrite (Open rect C R), L. reflexivity.
Qed.

Lemma keyboard_and_mouse_open_same_menu_witness :
  exists detail,
    MenubarItem.onClick (itemProps editMenu (Some "File"))
      (Some (clickAt (exampleLayout 1))) =
      ([StopPropagation; SetMenubarSelectedLabel (Some "Edit");
        SetContextMenuDetail (Some detail)], Normal tt) /\
    Menubar.onKeyDown domKeyCodes (exampleProps (Some "Edit") 0 None) exampleDom
      (key 38) =
      ([PreventDefault; SetSubmenuSelectedIndex 0;
        SetContextMenuDetail (Some detail)], Normal tt).
Proof.
  refine (keyboard_and_mouse_open_same_menu domKeyCodes
            (exampleProps (Some "Edit") 0 None) (exampleProps (Some "File") 0 None)
            exampleDom (key 38) (clickAt (exampleLayout 1))
            (itemProps editMenu (Some "File")) (exampleLayout 1)
            (or_introl eq_refl) _ eq_refl eq_refl eq_refl _ eq_refl _ eq_refl
            eq_refl eq_refl).
  - simpl. right. left. reflexivity.
  - discriminate.
  - discriminate.
Defined.

(** ** Mounting and unmounting *)

Lemma existsb_eqb_false (document : list Listener) (this : Listener) :
  ~ In this document -> existsb (Nat.eqb this) document = false.
Proof.
  intros N. destruct (existsb (Nat.eqb this) document) eqn:E; [|reflexivity].
  apply existsb_exists in E as (x & Hin & Hx).
  apply Nat.eqb_eq in Hx. subst x. contradiction.
Qed.

Lemma removeEventListener_last (document : list Listener) (this : Listener) :
  ~ In this document ->
  removeEventListener (document ++ [this]) this = document.
Proof.
  induction document as [|g document IH]; simpl; intros N.
  - rewrite Nat.eqb_refl. reflexivity.
  - destruct (Nat.eqb_spec this g) as [E|E]; [exfalso; apply N; now left|].
    rewrite IH; [reflexivity|]. intros H. apply N. now right.
Qed.

Lemma keydown_app keyCodes props_of dom (d1 d2 : list Listener) e :
  keydown keyCodes props_of dom (d1 ++ d2) e =
  keydown keyCodes props_of dom d1 e ++ keydown keyCodes props_of dom d2 e.
Proof.
  induction d1 as [|f d1 IH]; simpl; [reflexivity|].
  rewrite IH, app_assoc. reflexivity.
Qed.

(** X17. Mounting registers the menubar's key handler and unmounting
    removes it.  For a menubar that is not registered yet: while it is
    mounted a keydown event runs its [onKeyDown] after the listeners that
    were there before; after it is unmounted the listeners of the document
    are what they were, and a keydown event runs nothing of the menubar.
    Mounting twice registers the handler once. *)
Theorem mount_then_unmount :
  forall keyCodes (props_of : Listener -> MenubarProps) (dom : Dom)
         (document : list Listener) (this : Listener) (e : KeyEvent),
    (~ In this document ->
     keydown keyCodes props_of dom (componentWillMount this document) e =
       keydown keyCodes props_of dom document e ++
       trace (Menubar.onKeyDown keyCodes (props_of this) dom e) /\
     componentWillUnmount this (componentWillMount this document) = document /\
     keydown keyCodes props_of dom
       (componentWillUnmount this (componentWillMount this document)) e =
       keydown keyCodes props_of dom document e) /\
    componentWillMount this (componentWillMount this document) =
      componentWillMount this document.
Proof.
  intros keyCodes props_of dom document this e. split.
  - intros N. unfold componentWillMount, componentWillUnmount, addEventListener.
    rewrite (existsb_eqb_false document this N).
    rewrite (removeEventListener_last document this N).
    split; [|split; reflexivity].
    rewrite keydown_app. simpl. rewrite app_nil_r. reflexivity.
  - unfold componentWillMount, addEventListener.
    destruct (existsb (Nat.eqb this) document) eqn:E.
    + rewrite E. reflexivity.
    + assert (existsb (Nat.eqb this) (document ++ [this]) = true) as ->;
        [|reflexivity].
      rewrite existsb_app. simpl. rewrite Nat.eqb_refl, orb_true_r. reflexivity.
Qed.

Example mount_then_unmount_example :
  keydown domKeyCodes (fun _ => exampleProps (Some "Edit") 0 None) exampleDom
    (componentWillMount 7%nat []) (key 39) =
    [PreventDefault; SetMenubarSelectedLabel (Some "View")] /\
  keydown domKeyCodes (fun _ => exampleProps (Some "Edit") 0 None) exampleDom
    (componentWillUnmount 7%nat (componentWillMount 7%nat [])) (key 39) = [].
Proof. split; reflexivity. Qed.
